(** * ATSight-AI: the resume-analysis pipeline of [src/App.tsx]

    A shallow embedding of the [App] component's analysis logic
    ([handleResumeUpload], [extractTextFromPDF], [analyzeResume],
    [getATSColor], the Analyze button) together with the pieces of the
    JavaScript runtime it relies on ([String.prototype.trim], [JSON.parse]),
    and the properties of the specification checked against it. *)

From Stdlib Require Import List NArith ZArith Bool Ascii String Lia.
Import ListNotations.

Set Implicit Arguments.

(** ** JavaScript strings

    A JavaScript string is a finite sequence of UTF-16 code units.  Code
    units are kept as [N]; every literal of the source is ASCII. *)

Module Js.

Definition jsstring := list N.

Local Open Scope N_scope.

(** An ASCII literal of the source, as code units. *)
Definition lit (s : string) : jsstring :=
  map N_of_ascii (list_ascii_of_string s).

Fixpoint str_eqb (a b : jsstring) : bool :=
  match a, b with
  | [], [] => true
  | x :: a', y :: b' => (x =? y) && str_eqb a' b'
  | _, _ => false
  end.

(** [!s] for a string [s]: only the empty string is falsy. *)
Definition falsy (s : jsstring) : bool :=
  match s with [] => true | _ :: _ => false end.

(** ECMAScript WhiteSpace and LineTerminator code points, the set that
    [trim] strips: TAB, LF, VT, FF, CR, SP, NBSP, U+1680, U+2000..U+200A,
    U+2028, U+2029, U+202F, U+205F, U+3000 and U+FEFF. *)
Definition is_white (c : N) : bool :=
  existsb (N.eqb c) [9; 10; 11; 12; 13; 32; 160; 5760; 8232; 8233; 8239;
                     8287; 12288; 65279]
  || ((8192 <=? c) && (c <=? 8202)).

Fixpoint trimStart (s : jsstring) : jsstring :=
  match s with
  | [] => []
  | c :: rest => if is_white c then trimStart rest else s
  end.

Definition trimEnd (s : jsstring) : jsstring := rev (trimStart (rev s)).

Definition trim (s : jsstring) : jsstring := trimEnd (trimStart s).

(** [toLowerCase] restricted to Basic Latin; used where a concrete lowering
    is needed for ASCII inputs. *)
Definition ascii_lower_unit (c : N) : N :=
  if (65 <=? c) && (c <=? 90) then c + 32 else c.

Definition ascii_toLowerCase (s : jsstring) : jsstring :=
  map ascii_lower_unit s.

End Js.

Import Js.

(** ** JSON values and [JSON.parse] *)

Module Json.

Local Open Scope N_scope.

(** The value a JSON text denotes.  A number literal is kept as the exact
    decimal it denotes, [mantissa * 10 ^ exponent]; its rounding to a double
    (and the sign of a zero) is not modelled.  An object keeps its members
    in source order; property access reads the last member of a name. *)
#[warnings="-register-all"]
Inductive JValue : Type :=
| JNull
| JBool (b : bool)
| JNumber (mantissa exponent : Z)
| JString (s : jsstring)
| JArray (items : list JValue)
| JObject (members : list (jsstring * JValue)).

Inductive Token : Type :=
| TLBrace | TRBrace | TLBracket | TRBracket | TColon | TComma
| TString (s : jsstring)
| TNumber (mantissa exponent : Z)
| TTrue | TFalse | TNull.

(** *** Number literals *)

Definition is_digit (c : N) : bool := (48 <=? c) && (c <=? 57).

Fixpoint span_digits (s : list N) : list N * list N :=
  match s with
  | c :: rest =>
      if is_digit c
      then let (ds, r) := span_digits rest in (c :: ds, r)
      else ([], s)
  | [] => ([], [])
  end.

Definition digits_value (ds : list N) : Z :=
  fold_left (fun acc c => (10 * acc + Z.of_N (c - 48))%Z) ds 0%Z.

(** The [int] part: a single [0], or a digit [1]..[9] followed by digits. *)
Definition int_part (s : list N) : option (list N * list N) :=
  match s with
  | c :: rest =>
      if c =? 48 then Some ([c], rest)
      else if is_digit c then Some (span_digits s)
      else None
  | [] => None
  end.

(** The optional [frac] part: [.] followed by at least one digit. *)
Definition frac_part (s : list N) : option (list N * list N) :=
  match s with
  | c :: rest =>
      if c =? 46
      then match span_digits rest with
           | ([], _) => None
           | r => Some r
           end
      else Some ([], s)
  | [] => Some ([], [])
  end.

(** The optional [exp] part: [e] or [E], an optional sign, digits. *)
Definition exp_part (s : list N) : option (Z * list N) :=
  match s with
  | c :: rest =>
      if (c =? 101) || (c =? 69)
      then let (neg, rest') :=
             match rest with
             | d :: r => if d =? 45 then (true, r)
                         else if d =? 43 then (false, r)
                         else (false, rest)
             | [] => (false, rest)
             end in
           match span_digits rest' with
           | ([], _) => None
           | (ds, r) =>
               Some ((if neg then - digits_value ds else digits_value ds)%Z, r)
           end
      else Some (0%Z, s)
  | [] => Some (0%Z, [])
  end.

(** A whole lexeme as a JSON number. *)
Definition number_of_lexeme (s : list N) : option (Z * Z) :=
  let (neg, s1) :=
    match s with
    | c :: rest => if c =? 45 then (true, rest) else (false, s)
    | [] => (false, s)
    end in
  match int_part s1 with
  | None => None
  | Some (ip, s2) =>
      match frac_part s2 with
      | None => None
      | Some (fp, s3) =>
          match exp_part s3 with
          | Some (e, []) =>
              let m := digits_value (ip ++ fp) in
              Some ((if neg then - m else m)%Z,
                    (e - Z.of_nat (List.length fp))%Z)
          | _ => None
          end
      end
  end.

(** *** The lexer: one pass over the code units *)

Definition is_json_space (c : N) : bool :=
  (c =? 32) || (c =? 9) || (c =? 10) || (c =? 13).

Definition is_number_unit (c : N) : bool :=
  is_digit c || (c =? 45) || (c =? 43) || (c =? 46) || (c =? 101) || (c =? 69).

Definition hex_value (c : N) : option N :=
  if is_digit c then Some (c - 48)
  else if (97 <=? c) && (c <=? 102) then Some (c - 87)
  else if (65 <=? c) && (c <=? 70) then Some (c - 55)
  else None.

(** The code unit a single-character escape stands for. *)
Definition unescape (c : N) : option N :=
  if c =? 34 then Some 34        (* quotation mark *)
  else if c =? 92 then Some 92   (* reverse solidus *)
  else if c =? 47 then Some 47   (* solidus *)
  else if c =? 98 then Some 8    (* b: backspace *)
  else if c =? 102 then Some 12  (* f: form feed *)
  else if c =? 110 then Some 10  (* n: line feed *)
  else if c =? 114 then Some 13  (* r: carriage return *)
  else if c =? 116 then Some 9   (* t: tab *)
  else None.

Inductive LexMode : Type :=
| LTop
| LString (acc : list N)                      (* inside a string, reversed *)
| LEscape (acc : list N)                      (* after a backslash *)
| LUnicode (acc : list N) (n : nat) (v : N)   (* in a u escape, [n] digits to go *)
| LNumber (acc : list N)                      (* in a number, reversed *)
| LWord (rest : list N) (t : Token).          (* in true, false or null *)

(** A code unit met outside any token. *)
Definition lex_start (c : N) (out : list Token) : option (LexMode * list Token) :=
  if is_json_space c then Some (LTop, out)
  else if c =? 123 then Some (LTop, TLBrace :: out)
  else if c =? 125 then Some (LTop, TRBrace :: out)
  else if c =? 91 then Some (LTop, TLBracket :: out)
  else if c =? 93 then Some (LTop, TRBracket :: out)
  else if c =? 58 then Some (LTop, TColon :: out)
  else if c =? 44 then Some (LTop, TComma :: out)
  else if c =? 34 then Some (LString [], out)
  else if is_digit c || (c =? 45) then Some (LNumber [c], out)
  else if c =? 116 then Some (LWord (lit "rue") TTrue, out)
  else if c =? 102 then Some (LWord (lit "alse") TFalse, out)
  else if c =? 110 then Some (LWord (lit "ull") TNull, out)
  else None.

Definition lex_step (m : LexMode) (c : N) (out : list Token)
  : option (LexMode * list Token) :=
  match m with
  | LTop => lex_start c out
  | LString acc =>
      if c =? 34 then Some (LTop, TString (rev acc) :: out)
      else if c =? 92 then Some (LEscape acc, out)
      else if c <? 32 then None
      else Some (LString (c :: acc), out)
  | LEscape acc =>
      if c =? 117 then Some (LUnicode acc 4 0, out)
      else match unescape c with
           | Some u => Some (LString (u :: acc), out)
           | None => None
           end
  | LUnicode acc n v =>
      match hex_value c with
      | None => None
      | Some h =>
          match n with
          | 1%nat => Some (LString ((16 * v + h) :: acc), out)
          | S n' => Some (LUnicode acc n' (16 * v + h), out)
          | O => None
          end
      end
  | LNumber acc =>
      if is_number_unit c then Some (LNumber (c :: acc), out)
      else match number_of_lexeme (rev acc) with
           | Some (mt, e) => lex_start c (TNumber mt e :: out)
           | None => None
           end
  | LWord rest t =>
      match rest with
      | [x] => if c =? x then Some (LTop, t :: out) else None
      | x :: rest' => if c =? x then Some (LWord rest' t, out) else None
      | [] => None
      end
  end.

Fixpoint lex_from (m : LexMode) (s : list N) (out : list Token)
  : option (list Token) :=
  match s with
  | c :: rest =>
      match lex_step m c out with
      | Some (m', out') => lex_from m' rest out'
      | None => None
      end
  | [] =>
      match m with
      | LTop => Some (rev out)
      | LNumber acc =>
          match number_of_lexeme (rev acc) with
          | Some (mt, e) => Some (rev (TNumber mt e :: out))
          | None => None
          end
      | _ => None
      end
  end.

Definition lex (s : jsstring) : option (list Token) := lex_from LTop s [].

(** *** The parser: one pass over the tokens, with a stack of the
    containers that are still open *)

Inductive Frame : Type :=
| InArray (done : list JValue)
| InObject (done : list (jsstring * JValue)) (key : jsstring).

Inductive ParseMode : Type :=
| WantValue          (* a value must follow *)
| WantValueOrEnd     (* just after an opening bracket *)
| WantKeyOrEnd       (* just after an opening brace *)
| WantKey            (* after a comma inside an object *)
| WantColon          (* after a member name *)
| AfterValue         (* a value of the innermost container is complete *)
| Finished (v : JValue).

(** A complete value goes to the innermost open container, or is the
    result. *)
Definition deliver (v : JValue) (stack : list Frame)
  : list Frame * ParseMode :=
  match stack with
  | [] => ([], Finished v)
  | InArray done :: st => (InArray (v :: done) :: st, AfterValue)
  | InObject done k :: st => (InObject ((k, v) :: done) k :: st, AfterValue)
  end.

Definition scalar_of_token (t : Token) : option JValue :=
  match t with
  | TString s => Some (JString s)
  | TNumber m e => Some (JNumber m e)
  | TTrue => Some (JBool true)
  | TFalse => Some (JBool false)
  | TNull => Some JNull
  | _ => None
  end.

Definition close_array (stack : list Frame) : option (list Frame * ParseMode) :=
  match stack with
  | InArray done :: st => Some (deliver (JArray (rev done)) st)
  | _ => None
  end.

Definition close_object (stack : list Frame) : option (list Frame * ParseMode) :=
  match stack with
  | InObject done _ :: st => Some (deliver (JObject (rev done)) st)
  | _ => None
  end.

Definition open_value (t : Token) (stack : list Frame)
  : option (list Frame * ParseMode) :=
  match t with
  | TLBracket => Some (InArray [] :: stack, WantValueOrEnd)
  | TLBrace => Some (InObject [] [] :: stack, WantKeyOrEnd)
  | _ => match scalar_of_token t with
         | Some v => Some (deliver v stack)
         | None => None
         end
  end.

Definition set_key (k : jsstring) (stack : list Frame)
  : option (list Frame * ParseMode) :=
  match stack with
  | InObject done _ :: st => Some (InObject done k :: st, WantColon)
  | _ => None
  end.

Definition parse_step (t : Token) (stack : list Frame) (m : ParseMode)
  : option (list Frame * ParseMode) :=
  match m with
  | WantValue => open_value t stack
  | WantValueOrEnd =>
      match t with
      | TRBracket => close_array stack
      | _ => open_value t stack
      end
  | WantKeyOrEnd =>
      match t with
      | TRBrace => close_object stack
      | TString k => set_key k stack
      | _ => None
      end
  | WantKey =>
      match t with
      | TString k => set_key k stack
      | _ => None
      end
  | WantColon =>
      match t with
      | TColon => Some (stack, WantValue)
      | _ => None
      end
  | AfterValue =>
      match t, stack with
      | TComma, InArray _ :: _ => Some (stack, WantValue)
      | TComma, InObject _ _ :: _ => Some (stack, WantKey)
      | TRBracket, _ => close_array stack
      | TRBrace, _ => close_object stack
      | _, _ => None
      end
  | Finished _ => None
  end.

Fixpoint parse_tokens (ts : list Token) (stack : list Frame) (m : ParseMode)
  : option JValue :=
  match ts with
  | t :: rest =>
      match parse_step t stack m with
      | Some (stack', m') => parse_tokens rest stack' m'
      | None => None
      end
  | [] =>
      match m with
      | Finished v => Some v
      | _ => None
      end
  end.

(** [JSON.parse text]: [None] stands for the [SyntaxError] it throws. *)
Definition JSON_parse (text : jsstring) : option JValue :=
  match lex text with
  | Some ts => parse_tokens ts [] WantValue
  | None => None
  end.

(** Property access [o.name] on a decoded value, for the member names of
    the response schema: the last member of that name of an object, [None]
    (for [undefined]) when there is none or the value is not an object. *)
Fixpoint lookup (name : jsstring) (ms : list (jsstring * JValue))
  : option JValue :=
  match ms with
  | [] => None
  | (k, v) :: rest =>
      match lookup name rest with
      | Some v' => Some v'
      | None => if str_eqb k name then Some v else None
      end
  end.

Definition get (name : jsstring) (v : JValue) : option JValue :=
  match v with
  | JObject ms => lookup name ms
  | _ => None
  end.

(** A chain of property accesses, [v.a.b]. *)
Fixpoint read (path : list jsstring) (v : JValue) : option JValue :=
  match path with
  | [] => Some v
  | name :: rest =>
      match get name v with
      | Some x => read rest x
      | None => None
      end
  end.

End Json.

Import Json.

(** ** The [App] component *)

Module App.

(** An uploaded [File] object; its bytes are only ever read by
    [pdfToText]. *)
Inductive File : Type := FileHandle (id : N).

(** Values that are thrown or that a promise is rejected with. *)
Inductive JsError : Type :=
| SyntaxError                      (* thrown by [JSON.parse] *)
| TypeError                        (* property access on [undefined] *)
| Rejection (reason : jsstring).   (* a rejected promise of a collaborator *)

(** The argument of [groq.chat.completions.create]. *)
Record Message : Type := { role : jsstring; content : jsstring }.

Record Request : Type :=
  { messages : list Message;
    model : jsstring;
    response_format : jsstring }.

(** What the code reads of a completion: [choices[i].message.content],
    a string or [null]. *)
Record Choice : Type := { message_content : option jsstring }.

Record Completion : Type := { choices : list Choice }.

(** User-visible and diagnostic output. *)
Inductive Notice : Type :=
| Alert (msg : jsstring)
| ToastError (msg : jsstring)
| ToastSuccess (msg : jsstring)
| ConsoleError (msg : jsstring) (error : JsError).

(** The four [useState] cells of [App].  [analysisResult] holds whatever
    value was stored: [JNull] is its initial [null]. *)
Record AppState : Type :=
  { resumeFile : option File;
    jobDescription : jsstring;
    analysisResult : JValue;
    loading : bool }.

Definition initial : AppState :=
  {| resumeFile := None; jobDescription := [];
     analysisResult := JNull; loading := false |}.

Definition with_loading (b : bool) (s : AppState) : AppState :=
  {| resumeFile := resumeFile s; jobDescription := jobDescription s;
     analysisResult := analysisResult s; loading := b |}.

Definition with_analysisResult (v : JValue) (s : AppState) : AppState :=
  {| resumeFile := resumeFile s; jobDescription := jobDescription s;
     analysisResult := v; loading := loading s |}.

Definition with_resumeFile (f : File) (s : AppState) : AppState :=
  {| resumeFile := Some f; jobDescription := jobDescription s;
     analysisResult := analysisResult s; loading := loading s |}.

Definition with_jobDescription (j : jsstring) (s : AppState) : AppState :=
  {| resumeFile := resumeFile s; jobDescription := j;
     analysisResult := analysisResult s; loading := loading s |}.

(** *** Asynchronous code

    The body of an [async] function, as the tree of what it does: state
    writes, notices, and the two awaited calls, each with the continuation
    that receives how the promise settled.  [Throw] is an exception in
    flight. *)
Inductive Task (A : Type) : Type :=
| Return (a : A)
| Throw (e : JsError)
| Notify (n : Notice) (k : Task A)
| SetLoading (b : bool) (k : Task A)
| SetAnalysisResult (v : JValue) (k : Task A)
| AwaitPdfToText (file : File) (k : JsError + jsstring -> Task A)
| AwaitCompletion (req : Request) (k : JsError + Completion -> Task A).

Arguments Return {A} a.
Arguments Throw {A} e.
Arguments Notify {A} n k.
Arguments SetLoading {A} b k.
Arguments SetAnalysisResult {A} v k.
Arguments AwaitPdfToText {A} file k.
Arguments AwaitCompletion {A} req k.

Fixpoint bind {A B : Type} (t : Task A) (f : A -> Task B) : Task B :=
  match t with
  | Return a => f a
  | Throw e => Throw e
  | Notify n k => Notify n (bind k f)
  | SetLoading b k => SetLoading b (bind k f)
  | SetAnalysisResult v k => SetAnalysisResult v (bind k f)
  | AwaitPdfToText file k => AwaitPdfToText file (fun r => bind (k r) f)
  | AwaitCompletion req k => AwaitCompletion req (fun r => bind (k r) f)
  end.

(** [try { t } catch (error) { h error }] *)
Fixpoint try_catch {A : Type} (t : Task A) (h : JsError -> Task A) : Task A :=
  match t with
  | Return a => Return a
  | Throw e => h e
  | Notify n k => Notify n (try_catch k h)
  | SetLoading b k => SetLoading b (try_catch k h)
  | SetAnalysisResult v k => SetAnalysisResult v (try_catch k h)
  | AwaitPdfToText file k => AwaitPdfToText file (fun r => try_catch (k r) h)
  | AwaitCompletion req k => AwaitCompletion req (fun r => try_catch (k r) h)
  end.

(** [try { t } finally { fin }]: [fin] runs however [t] ends, and the way
    [t] ended is kept. *)
Fixpoint finally {A : Type} (t : Task A) (fin : Task unit) : Task A :=
  match t with
  | Return a => bind fin (fun _ => Return a)
  | Throw e => bind fin (fun _ => Throw e)
  | Notify n k => Notify n (finally k fin)
  | SetLoading b k => SetLoading b (finally k fin)
  | SetAnalysisResult v k => SetAnalysisResult v (finally k fin)
  | AwaitPdfToText file k => AwaitPdfToText file (fun r => finally (k r) fin)
  | AwaitCompletion req k => AwaitCompletion req (fun r => finally (k r) fin)
  end.

Notation "x <- t ;; k" := (bind t (fun x => k))
  (at level 61, t at next level, right associativity).
Notation "t ;; k" := (bind t (fun _ => k))
  (at level 61, right associativity).

(** [await p]: the value of a fulfilled promise, a throw of the reason of
    a rejected one. *)
Definition settle {A X : Type} (r : JsError + X) (k : X -> Task A) : Task A :=
  match r with
  | inl e => Throw e
  | inr x => k x
  end.

Definition pdfToText (file : File) : Task jsstring :=
  AwaitPdfToText file (fun r => settle r Return).

Definition groq_chat_completions_create (req : Request) : Task Completion :=
  AwaitCompletion req (fun r => settle r Return).

Definition alert (msg : jsstring) : Task unit := Notify (Alert msg) (Return tt).
Definition toast_error (msg : jsstring) : Task unit :=
  Notify (ToastError msg) (Return tt).
Definition toast_success (msg : jsstring) : Task unit :=
  Notify (ToastSuccess msg) (Return tt).
Definition console_error (msg : jsstring) (e : JsError) : Task unit :=
  Notify (ConsoleError msg e) (Return tt).
Definition setLoading (b : bool) : Task unit := SetLoading b (Return tt).
Definition setAnalysisResult (v : JValue) : Task unit :=
  SetAnalysisResult v (Return tt).

(** *** The prompt

    The template literal of [analyzeResume].  In the pieces below an
    apostrophe stands for the quotation mark of the source (the template
    has no apostrophe of its own); [template] puts the quotation marks
    back. *)
Definition template (s : string) : jsstring :=
  map (fun c => if N.eqb c 39 then 34%N else c) (lit s).

Definition prompt_head : jsstring := template "
You are an AI Resume Analyzer designed to help job seekers improve their resumes. Analyze the following resume against the provided job description and return a response in strict JSON format as per the schema below. Give detailed recommendations and insights based on the analysis. Analyze the resume STRICTLY based on the job description.

Respond ONLY with the JSON object.

Schema:
{
  'overall_summary': string,
  'resume_score': number (0 to 100),
  'ats_compatibility': 'High' | 'Medium' | 'Low',
  'resume_length': 'Too Short' | 'Optimal' | 'Too Long',
  'readability_score': number (0 to 100),
  'skills_match': {
    'matched': string[],
    'missing': string[],
    'match_percentage': number (0 to 100)
  },
  'soft_skills_match': {
    'matched': string[],
    'missing': string[]
  },
  'technical_proficiency': {
    'strong': string[],
    'moderate': string[],
    'weak_or_missing': string[]
  },
  'keywords_analysis': {
    'present_keywords': string[],
    'missing_keywords': string[]
  },
  'job_requirements_coverage': {
    'met_requirements': string[],
    'missing_requirements': string[]
  },
  'experience_alignment': {
    'aligned_experience': string[],
    'missing_experience_areas': string[]
  },
  'tone_of_language': 'Professional' | 'Casual' | 'Neutral' | 'Aggressive',
  'formatting_issues': string[],
  'grammar_issues': string[],
  'recommendations': string[]
}

Resume:
".

Definition prompt_middle : jsstring := template "

Job Description:
".

Definition prompt_tail : jsstring := template "
".

Definition build_prompt (resumeText jobDescription : jsstring) : jsstring :=
  prompt_head ++ resumeText ++ prompt_middle ++ jobDescription ++ prompt_tail.

Definition build_request (prompt : jsstring) : Request :=
  {| messages := [ {| role := lit "user"; content := prompt |} ];
     model := lit "llama-3.3-70b-versatile";
     response_format := lit "json_object" |}.

(** *** [extractTextFromPDF] and [analyzeResume] *)

Definition extractTextFromPDF (file : File) : Task jsstring :=
  try_catch
    (text <- pdfToText file ;;
     Return text)
    (fun error =>
       console_error (lit "Failed to extract text from PDF:") error ;;
       Return []).

(** [completion.choices[0].message.content]: reading [message] of a
    missing first choice throws. *)
Definition first_content (completion : Completion) : Task (option jsstring) :=
  match choices completion with
  | c :: _ => Return (message_content c)
  | [] => Throw TypeError
  end.

(** [JSON.parse] applied to a string or to [null], which it first turns
    into the text [null]. *)
Definition JSON_parse_content (c : option jsstring) : Task JValue :=
  let text := match c with Some s => s | None => lit "null" end in
  match JSON_parse text with
  | Some v => Return v
  | None => Throw SyntaxError
  end.

(** [analyzeResume], closed over the [resumeFile] and [jobDescription] of
    the render it was created in. *)
Definition analyzeResume (resumeFile : option File) (jobDescription : jsstring)
  : Task unit :=
  match resumeFile, falsy jobDescription with
  | Some file, false =>
      setLoading true ;;
      finally
        (try_catch
           (resumeText <- extractTextFromPDF file ;;
            if falsy (trim resumeText) then
              toast_error (lit "Failed to Scan Resume") ;;
              setLoading false ;;
              Return tt
            else
              let prompt := build_prompt resumeText jobDescription in
              completion <- groq_chat_completions_create (build_request prompt) ;;
              content <- first_content completion ;;
              result <- JSON_parse_content content ;;
              setAnalysisResult result ;;
              toast_success (lit "Analysis complete!") ;;
              Return tt)
           (fun error =>
              console_error (lit "Failed to analyze resume:") error ;;
              alert (lit "Failed to analyze resume. Please try again.")))
        (setLoading false)
  | _, _ =>
      alert (lit "Please upload a resume and provide a job description") ;;
      Return tt
  end.

(** *** Presentation helpers *)

Section Presentation.

(** [String.prototype.toLowerCase]: the Unicode case mapping of the
    runtime. *)
Variable toLowerCase : jsstring -> jsstring.

(** [getATSColor]: a [switch] on the lowered value, with a [default]. *)
Definition getATSColor (compatibility : jsstring) : jsstring :=
  let c := toLowerCase compatibility in
  if str_eqb c (lit "high") then lit "text-green-600"
  else if str_eqb c (lit "medium") then lit "text-yellow-600"
  else if str_eqb c (lit "low") then lit "text-red-600"
  else lit "text-gray-600".

End Presentation.

End App.

(** ** Running a task *)

Module Run.

Import App.

(** What a run does to the outside, in order: the notices it shows and the
    calls it issues to its two collaborators. *)
Inductive Event : Type :=
| Shown (n : Notice)
| CalledPdfToText (file : File)
| CalledGroq (req : Request).

(** The collaborators: how the promise of each call settles. *)
Record World : Type :=
  { pdf_outcome : File -> JsError + jsstring;
    groq_outcome : Request -> JsError + Completion }.

Record Result (A : Type) : Type :=
  { returned : JsError + A;
    final : AppState;
    events : list Event }.

Definition emit {A : Type} (e : Event) (r : Result A) : Result A :=
  {| returned := returned r; final := final r; events := e :: events r |}.

(** A task run to its end, every awaited promise settling as the world
    says. *)
Fixpoint exec {A : Type} (w : World) (t : Task A) (s : AppState) : Result A :=
  match t with
  | Return a => {| returned := inr a; final := s; events := [] |}
  | Throw e => {| returned := inl e; final := s; events := [] |}
  | Notify n k => emit (Shown n) (exec w k s)
  | SetLoading b k => exec w k (with_loading b s)
  | SetAnalysisResult v k => exec w k (with_analysisResult v s)
  | AwaitPdfToText file k =>
      emit (CalledPdfToText file) (exec w (k (pdf_outcome w file)) s)
  | AwaitCompletion req k =>
      emit (CalledGroq req) (exec w (k (groq_outcome w req)) s)
  end.

(** One invocation of [analyzeResume] from state [s], by the handler of
    the render that shows [s]. *)
Definition run (w : World) (s : AppState) : Result unit :=
  exec w (analyzeResume (resumeFile s) (jobDescription s)) s.

(** The inputs [analyzeResume] insists on. *)
Definition inputs_present (s : AppState) : bool :=
  match resumeFile s with
  | Some _ => negb (falsy (jobDescription s))
  | None => false
  end.

(** The text [extractTextFromPDF] resolves to. *)
Definition extracted (w : World) (file : File) : jsstring :=
  match pdf_outcome w file with
  | inr text => text
  | inl _ => []
  end.

(** The events of [extractTextFromPDF]. *)
Definition extraction_events (w : World) (file : File) : list Event :=
  CalledPdfToText file ::
  match pdf_outcome w file with
  | inr _ => []
  | inl e => [Shown (ConsoleError (lit "Failed to extract text from PDF:") e)]
  end.

(** The raw text handed to [JSON.parse], when the service answered with at
    least one choice. *)
Definition raw_content (c : Completion) : option jsstring :=
  match choices c with
  | ch :: _ => Some (match message_content ch with
                     | Some text => text
                     | None => lit "null"
                     end)
  | [] => None
  end.

Definition failure_events (e : JsError) : list Event :=
  [Shown (ConsoleError (lit "Failed to analyze resume:") e);
   Shown (Alert (lit "Failed to analyze resume. Please try again."))].

Definition calls_to_groq (evs : list Event) : list Request :=
  flat_map (fun e => match e with CalledGroq r => [r] | _ => [] end) evs.

Definition calls_to_pdfToText (evs : list Event) : list File :=
  flat_map (fun e => match e with CalledPdfToText f => [f] | _ => [] end) evs.

Definition notices (evs : list Event) : list Notice :=
  flat_map (fun e => match e with Shown n => [n] | _ => [] end) evs.

Definition is_success_notice (n : Notice) : bool :=
  match n with ToastSuccess _ => true | _ => false end.

(** A run took the success path when it showed the success toast. *)
Definition succeeded (r : Result unit) : bool :=
  existsb is_success_notice (notices (events r)).

(** The request a run sends once [file] has been read. *)
Definition request_of (w : World) (s : AppState) (file : File) : Request :=
  build_request (build_prompt (extracted w file) (jobDescription s)).

(** The text a run hands to [JSON.parse], if it gets that far: the inputs
    are there, the extracted text is not blank, the service answered, and
    its answer has a first choice. *)
Definition response_text (w : World) (s : AppState) : option jsstring :=
  match resumeFile s with
  | Some file =>
      if falsy (jobDescription s) then None
      else if falsy (trim (extracted w file)) then None
      else match groq_outcome w (request_of w s file) with
           | inr c => raw_content c
           | inl _ => None
           end
  | None => None
  end.

(** A run that returns normally, leaving state [s] after events [evs]. *)
Definition finish (s : AppState) (evs : list Event) : Result unit :=
  {| returned := inr tt; final := s; events := evs |}.

(** The paths of [analyzeResume] laid out by cases on how the two
    collaborators answer; [Paths.run_characterised] proves that [run] is
    this function. *)
Definition run_by_cases (w : World) (s : AppState) : Result unit :=
  match resumeFile s with
  | None =>
      finish s
        [Shown (Alert (lit "Please upload a resume and provide a job description"))]
  | Some file =>
      if falsy (jobDescription s) then
        finish s
          [Shown (Alert (lit "Please upload a resume and provide a job description"))]
      else if falsy (trim (extracted w file)) then
        finish (with_loading false s)
          (extraction_events w file ++
           [Shown (ToastError (lit "Failed to Scan Resume"))])
      else
        let sent := extraction_events w file ++
                    [CalledGroq (request_of w s file)] in
        match groq_outcome w (request_of w s file) with
        | inl e => finish (with_loading false s) (sent ++ failure_events e)
        | inr c =>
            match raw_content c with
            | None =>
                finish (with_loading false s) (sent ++ failure_events TypeError)
            | Some raw =>
                match JSON_parse raw with
                | None =>
                    finish (with_loading false s)
                      (sent ++ failure_events SyntaxError)
                | Some v =>
                    finish (with_loading false (with_analysisResult v s))
                      (sent ++ [Shown (ToastSuccess (lit "Analysis complete!"))])
                end
            end
        end
  end.

End Run.

(** ** The page: event handlers and runs in flight

    JavaScript runs one handler at a time, to its end or to its next
    [await], and React commits the state a handler wrote before the next
    event is delivered.  The page is the state of [App], the invocations
    of [analyzeResume] suspended at an [await], and what was shown and
    called so far. *)

Module Ui.

Import App Run.

(** A task up to its next [await]: the rest of the task, the state and the
    events.  Reaching an [await] issues its call. *)
Fixpoint advance {A : Type} (t : Task A) (s : AppState)
  : Task A * AppState * list Event :=
  match t with
  | Notify n k =>
      let '(t', s', evs) := advance k s in (t', s', Shown n :: evs)
  | SetLoading b k => advance k (with_loading b s)
  | SetAnalysisResult v k => advance k (with_analysisResult v s)
  | AwaitPdfToText file _ => (t, s, [CalledPdfToText file])
  | AwaitCompletion req _ => (t, s, [CalledGroq req])
  | Return _ | Throw _ => (t, s, [])
  end.

(** A task that is over is dropped; one at an [await] stays in flight. *)
Definition in_flight {A : Type} (t : Task A) : list (Task A) :=
  match t with
  | AwaitPdfToText _ _ | AwaitCompletion _ _ => [t]
  | _ => []
  end.

Inductive Settled : Type :=
| PdfSettled (r : JsError + jsstring)
| CompletionSettled (r : JsError + Completion).

(** The continuation of a suspended task, given how its promise settled. *)
Definition resume {A : Type} (t : Task A) (o : Settled) : option (Task A) :=
  match t, o with
  | AwaitPdfToText _ k, PdfSettled r => Some (k r)
  | AwaitCompletion _ k, CompletionSettled r => Some (k r)
  | _, _ => None
  end.

(** How the promise a suspended task awaits settles in a given world. *)
Definition answer {A : Type} (w : World) (t : Task A) : option Settled :=
  match t with
  | AwaitPdfToText file _ => Some (PdfSettled (pdf_outcome w file))
  | AwaitCompletion req _ => Some (CompletionSettled (groq_outcome w req))
  | _ => None
  end.

(** What a task that is over ended with. *)
Definition ended {A : Type} (t : Task A) : option (JsError + A) :=
  match t with
  | Return a => Some (inr a)
  | Throw e => Some (inl e)
  | _ => None
  end.

Record Page : Type :=
  { app : AppState;
    pending : list (Task unit);
    shown : list Event }.

Definition start : Page :=
  {| app := initial; pending := []; shown := [] |}.

(** A call of [analyzeResume] as the current render defines it. *)
Definition invoke (p : Page) : Page :=
  let '(t, s, evs) :=
    advance (analyzeResume (resumeFile (app p)) (jobDescription (app p)))
            (app p) in
  {| app := s; pending := pending p ++ in_flight t; shown := shown p ++ evs |}.

(** The [disabled] attribute of the Analyze button. *)
Definition disabled (s : AppState) : bool :=
  loading s
  || match resumeFile s with Some _ => false | None => true end
  || falsy (jobDescription s).

(** A click on the Analyze button: [onClick] fires only when the button is
    enabled. *)
Definition click (p : Page) : Page :=
  if disabled (app p) then p else invoke p.

(** [handleResumeUpload]: keeps the first file of the input, if any. *)
Definition handleResumeUpload (files : list File) (p : Page) : Page :=
  match files with
  | f :: _ =>
      {| app := with_resumeFile f (app p);
         pending := pending p; shown := shown p |}
  | [] => p
  end.

(** [onChange] of the job description field. *)
Definition editJobDescription (v : jsstring) (p : Page) : Page :=
  {| app := with_jobDescription v (app p);
     pending := pending p; shown := shown p |}.

(** The promise the [i]-th suspended run awaits settles. *)
Definition settled (i : nat) (o : Settled) (p : Page) : Page :=
  match nth_error (pending p) i with
  | Some t =>
      match resume t o with
      | Some t1 =>
          let '(t', s, evs) := advance t1 (app p) in
          {| app := s;
             pending := firstn i (pending p) ++ in_flight t' ++
                        skipn (S i) (pending p);
             shown := shown p ++ evs |}
      | None => p
      end
  | None => p
  end.

Inductive Input : Type :=
| Upload (files : list File)
| EditJobDescription (v : jsstring)
| Click
| Settle (i : nat) (o : Settled).

Definition react (p : Page) (i : Input) : Page :=
  match i with
  | Upload files => handleResumeUpload files p
  | EditJobDescription v => editJobDescription v p
  | Click => click p
  | Settle n o => settled n o p
  end.

(** The page after a sequence of inputs. *)
Definition page_after (inputs : list Input) : Page :=
  fold_left react inputs start.

(** The pages a user can bring about. *)
Inductive reachable : Page -> Prop :=
| reach_start : reachable start
| reach_react (p : Page) (i : Input) :
    reachable p -> reachable (react p i).

(** A task all of whose ways end with [loading] reset: [Resets b t] when
    [t], started where [loading] is [b], writes [false] last before it
    returns, lets no exception escape, and awaits only while [loading] is
    [true]. *)
Inductive Resets : bool -> Task unit -> Prop :=
| Resets_return : Resets false (Return tt)
| Resets_notify (b : bool) (n : Notice) (k : Task unit) :
    Resets b k -> Resets b (Notify n k)
| Resets_setLoading (b b' : bool) (k : Task unit) :
    Resets b' k -> Resets b (SetLoading b' k)
| Resets_setAnalysisResult (b : bool) (v : JValue) (k : Task unit) :
    Resets b k -> Resets b (SetAnalysisResult v k)
| Resets_pdfToText (file : File) (k : JsError + jsstring -> Task unit) :
    (forall r, Resets true (k r)) -> Resets true (AwaitPdfToText file k)
| Resets_completion (req : Request) (k : JsError + Completion -> Task unit) :
    (forall r, Resets true (k r)) -> Resets true (AwaitCompletion req k).

(** Nothing in flight and not loading, or exactly one run in flight,
    loading, and bound to reset the flag. *)
Definition single_flight (p : Page) : Prop :=
  (pending p = [] /\ loading (app p) = false)
  \/ (exists t, pending p = [t] /\ in_flight t = [t] /\
                loading (app p) = true /\ Resets true t).

End Ui.

(** ** The validator the specification describes

    These definitions follow the words of the specification (its data
    model table and the steps of its [ResultValidator]), not the source;
    they are what the code is compared with. *)

Module Spec.

Inductive ValidationError : Type :=
| Malformed
| SchemaMismatch (field : jsstring).

Inductive LeafType : Type :=
| IsString
| IsNumber
| IsEnum (allowed : list jsstring)
| IsStringArray.

Inductive FieldType : Type :=
| Leaf (t : LeafType)
| Group (fields : list (jsstring * LeafType)).

(** The table of the data model, in its order. *)
Definition schema : list (jsstring * FieldType) :=
  [ (lit "overall_summary", Leaf IsString);
    (lit "resume_score", Leaf IsNumber);
    (lit "ats_compatibility",
       Leaf (IsEnum [lit "High"; lit "Medium"; lit "Low"]));
    (lit "resume_length",
       Leaf (IsEnum [lit "Too Short"; lit "Optimal"; lit "Too Long"]));
    (lit "readability_score", Leaf IsNumber);
    (lit "skills_match",
       Group [(lit "matched", IsStringArray); (lit "missing", IsStringArray);
              (lit "match_percentage", IsNumber)]);
    (lit "soft_skills_match",
       Group [(lit "matched", IsStringArray); (lit "missing", IsStringArray)]);
    (lit "technical_proficiency",
       Group [(lit "strong", IsStringArray); (lit "moderate", IsStringArray);
              (lit "weak_or_missing", IsStringArray)]);
    (lit "keywords_analysis",
       Group [(lit "present_keywords", IsStringArray);
              (lit "missing_keywords", IsStringArray)]);
    (lit "job_requirements_coverage",
       Group [(lit "met_requirements", IsStringArray);
              (lit "missing_requirements", IsStringArray)]);
    (lit "experience_alignment",
       Group [(lit "aligned_experience", IsStringArray);
              (lit "missing_experience_areas", IsStringArray)]);
    (lit "tone_of_language",
       Leaf (IsEnum [lit "Professional"; lit "Casual"; lit "Neutral";
                     lit "Aggressive"]));
    (lit "formatting_issues", Leaf IsStringArray);
    (lit "grammar_issues", Leaf IsStringArray);
    (lit "recommendations", Leaf IsStringArray) ].

Definition is_string (v : JValue) : bool :=
  match v with JString _ => true | _ => false end.

(** Case-insensitive match against the allowed set. *)
Definition matches_enum (allowed : list jsstring) (s : jsstring) : bool :=
  existsb (fun a => str_eqb (ascii_toLowerCase a) (ascii_toLowerCase s)) allowed.

Definition leaf_ok (t : LeafType) (v : JValue) : bool :=
  match t, v with
  | IsString, JString _ => true
  | IsNumber, JNumber _ _ => true
  | IsEnum allowed, JString s => matches_enum allowed s
  | IsStringArray, JArray items => forallb is_string items
  | _, _ => false
  end.

(** Presence and type of one field of the table. *)
Definition field_ok (t : FieldType) (o : option JValue) : bool :=
  match o with
  | None => false
  | Some v =>
      match t with
      | Leaf l => leaf_ok l v
      | Group fields =>
          forallb (fun nl => match get (fst nl) v with
                             | Some x => leaf_ok (snd nl) x
                             | None => false
                             end) fields
      end
  end.

(** The first field of the table, in its order, that is missing or
    mistyped. *)
Definition first_offending_field (v : JValue) : option jsstring :=
  match find (fun nt => negb (field_ok (snd nt) (get (fst nt) v))) schema with
  | Some (name, _) => Some name
  | None => None
  end.

(** What [parse] answers for a raw text: the error it fails with, or
    [None] when it yields a result. *)
Definition verdict (raw : jsstring) : option ValidationError :=
  match JSON_parse raw with
  | None => Some Malformed
  | Some v =>
      match first_offending_field v with
      | Some field => Some (SchemaMismatch field)
      | None => None
      end
  end.

(** Clamping of a number to the bounds 0 and 100. *)
Definition clamp (m e : Z) : JValue :=
  if (m <? 0)%Z then JNumber 0 0
  else if (if (0 <=? e)%Z then (100 <? m * 10 ^ e)%Z
           else (100 * 10 ^ (- e) <? m)%Z)
       then JNumber 100 0
       else JNumber m e.

(** The fields bounded by 0 and 100, as access paths. *)
Definition bounded_fields : list (list jsstring) :=
  [ [lit "resume_score"];
    [lit "readability_score"];
    [lit "skills_match"; lit "match_percentage"] ].

(** The fields typed as enumerations. *)
Definition enum_fields : list jsstring :=
  [lit "ats_compatibility"; lit "resume_length"; lit "tone_of_language"].

End Spec.

(** ** Sample inputs *)

Module Samples.

Import App Run.

Definition resume_pdf : File := FileHandle 1.

Definition resume_text : jsstring :=
  lit "Experienced Go developer, 5 years, AWS, Docker".

(** A page state with both inputs given and no earlier result. *)
Definition ready : AppState :=
  {| resumeFile := Some resume_pdf;
     jobDescription :=
       lit "Seeking backend engineer with Go, Kubernetes, AWS experience";
     analysisResult := JNull;
     loading := false |}.

(** A world in which the document reads as [text] and the service answers
    with the single choice [raw]. *)
Definition answering (text raw : jsstring) : World :=
  {| pdf_outcome := fun _ => inr text;
     groq_outcome := fun _ =>
       inr {| choices := [ {| message_content := Some raw |} ] |} |}.

(** A response that has every field of the schema, with the given score
    and ATS compatibility (an apostrophe stands for a quotation mark). *)
Definition payload (score ats : string) : jsstring :=
  template
    ("{'overall_summary': 'Solid backend profile', 'resume_score': " ++ score ++
     ", 'ats_compatibility': '" ++ ats ++ "', 'resume_length': 'Optimal', " ++
     "'readability_score': 82, " ++
     "'skills_match': {'matched': ['Go', 'AWS'], 'missing': ['Kubernetes'], " ++
       "'match_percentage': 66}, " ++
     "'soft_skills_match': {'matched': [], 'missing': ['Communication']}, " ++
     "'technical_proficiency': {'strong': ['Go'], 'moderate': ['AWS'], " ++
       "'weak_or_missing': ['Kubernetes']}, " ++
     "'keywords_analysis': {'present_keywords': ['Go'], " ++
       "'missing_keywords': ['Kubernetes']}, " ++
     "'job_requirements_coverage': {'met_requirements': ['Go'], " ++
       "'missing_requirements': ['Kubernetes']}, " ++
     "'experience_alignment': {'aligned_experience': ['Backend'], " ++
       "'missing_experience_areas': []}, " ++
     "'tone_of_language': 'Professional', 'formatting_issues': [], " ++
     "'grammar_issues': [], 'recommendations': ['Mention Kubernetes']}")%string.

Definition not_json : jsstring := template "{not json".

Definition empty_object : jsstring := template "{}".

Definition world_not_json : World := answering resume_text not_json.

Definition world_empty_object : World := answering resume_text empty_object.

Definition world_score_150 : World :=
  answering resume_text (payload "150" "High").

Definition world_score_below_zero : World :=
  answering resume_text (payload "-7" "High").

Definition world_upper_case : World :=
  answering resume_text (payload "85" "HIGH").

Definition world_banana : World :=
  answering resume_text (payload "85" "Banana").

(** The document reads as nothing, or as white space only. *)
Definition world_empty_text : World := answering [] (payload "85" "High").

Definition blank_text : jsstring := [32; 9; 10; 160; 8195]%N.

Definition world_blank_text : World :=
  answering blank_text (payload "85" "High").

(** The service refuses the request. *)
Definition world_rate_limited : World :=
  {| pdf_outcome := fun _ => inr resume_text;
     groq_outcome := fun _ => inl (Rejection (lit "429 Too Many Requests")) |}.

(** States other than [ready]. *)
Definition no_job_description : AppState := with_jobDescription [] ready.

Definition earlier_result : JValue :=
  JObject [(lit "resume_score", JNumber 85 0)].

Definition analysed_before : AppState := with_analysisResult earlier_result ready.

Definition other_session : AppState :=
  with_loading true
    (with_analysisResult earlier_result (with_resumeFile (FileHandle 2) ready)).

(** The user uploads a document, types a job description and clicks
    Analyze. *)
Definition first_click : list Ui.Input :=
  [Ui.Upload [resume_pdf];
   Ui.EditJobDescription (jobDescription ready);
   Ui.Click].

End Samples.

(** ** Rendering the stored result

    [getScoreColor], [renderSkillsDistribution],
    [renderRequirementsCoverage] and [renderAnalysisResult], as what they
    compute from the stored value before handing it to the chart and
    markup components: every property read, every method call, every class
    name, in the order of the source.  A read on [null] or [undefined] and
    a call of something that is no function throw a [TypeError]. *)

Module Render.

Import App.

Local Open Scope Z_scope.

(** A value or [undefined]. *)
Definition JsVal := option JValue.

(** A decimal that rounds to the double zero: zero itself, or at most half
    the least positive double, [2 ^ -1075]. *)
Definition rounds_to_zero (m e : Z) : bool :=
  (m =? 0) || ((e <? 0) && (Z.abs m * 2 ^ 1075 <=? 10 ^ (- e))).

(** Truthiness of a decoded value: [!v] is [negb (truthy v)]. *)
Definition truthy (v : JValue) : bool :=
  match v with
  | JNull => false
  | JBool b => b
  | JNumber m e => negb (rounds_to_zero m e)
  | JString s => negb (falsy s)
  | JArray _ | JObject _ => true
  end.

Definition number_of_nat (n : nat) : JValue := JNumber (Z.of_nat n) 0.

(** [x.name], for the names the component reads: the members of the
    response schema, and [length]. *)
Definition member (name : jsstring) (x : JsVal) : JsError + JsVal :=
  match x with
  | None | Some JNull => inl TypeError
  | Some (JObject ms) => inr (lookup name ms)
  | Some (JArray items) =>
      inr (if str_eqb name (lit "length")
           then Some (number_of_nat (List.length items)) else None)
  | Some (JString s) =>
      inr (if str_eqb name (lit "length")
           then Some (number_of_nat (List.length s)) else None)
  | Some (JBool _) | Some (JNumber _ _) => inr None
  end.

(** [x.map(item => ...)] with a callback that wraps each item: only an
    array has a [map] to call. *)
Definition map_items (x : JsVal) : JsError + list JValue :=
  match x with
  | Some (JArray items) => inr items
  | _ => inl TypeError
  end.

Definition and_then {A B : Type} (r : JsError + A) (k : A -> JsError + B)
  : JsError + B :=
  match r with
  | inl e => inl e
  | inr a => k a
  end.

Notation "'let*' x ':=' r 'in' k" := (and_then r (fun x => k))
  (at level 10, x name, r at level 100, k at level 200).

(** [analysisResult.group.name] *)
Definition read2 (group name : jsstring) (v : JValue) : JsError + JsVal :=
  let* g := member group (Some v) in
  member name g.

(** [analysisResult.group.name.map(...)] *)
Definition items_of (group name : jsstring) (v : JValue)
  : JsError + list JValue :=
  let* x := read2 group name v in
  map_items x.

(** [analysisResult.group.name.length] *)
Definition count_of (group name : jsstring) (v : JValue) : JsError + JsVal :=
  let* x := read2 group name v in
  member (lit "length") x.

(** [analysisResult.name.map(...)] *)
Definition items_at (name : jsstring) (v : JValue) : JsError + list JValue :=
  let* x := member name (Some v) in
  map_items x.

Definition COLORS : list jsstring :=
  [lit "#0088FE"; lit "#00C49F"; lit "#FFBB28"; lit "#FF8042"; lit "#8884d8"].

(** [COLORS[index % COLORS.length]] *)
Definition cell_fill (index : nat) : option jsstring :=
  nth_error COLORS (index mod List.length COLORS).

(** The [data] of a chart and the fill of the cell of each entry. *)
Record PieChart : Type :=
  { pie_data : list (jsstring * JsVal);
    pie_fills : list (option jsstring) }.

Record BarChart : Type :=
  { bar_name : jsstring;
    bar_met : JsVal;
    bar_missing : JsVal }.

(** What [renderAnalysisResult] puts on the page. *)
Record Report : Type :=
  { resume_score_class : jsstring;
    resume_score_text : JsVal;
    ats_class : jsstring;
    ats_text : JsVal;
    readability_class : jsstring;
    readability_text : JsVal;
    skills_match_class : jsstring;
    skills_match_text : JsVal;
    missing_skills : list JValue;
    summary_text : JsVal;
    skills_distribution : option PieChart;
    strong_skills : list JValue;
    moderate_skills : list JValue;
    weak_skills : list JValue;
    present_keywords : list JValue;
    missing_keywords : list JValue;
    requirements_coverage : option BarChart;
    met_requirements : list JValue;
    missing_requirements : list JValue;
    present_soft_skills : list JValue;
    missing_soft_skills : list JValue;
    length_text : JsVal;
    tone_text : JsVal;
    formatting_issues : list JValue;
    grammar_issues : list JValue;
    recommendations : list JValue }.

Section Runtime.

(** [String.prototype.toLowerCase], and [x >= n] for a numeric literal
    [n]: the case mapping and the numeric comparison of the runtime.
    Neither throws on a decoded value. *)
Variable toLowerCase : jsstring -> jsstring.
Variable at_least : JsVal -> Z -> bool.

Definition getScoreColor (score : JsVal) : jsstring :=
  if at_least score 80 then lit "text-green-600"
  else if at_least score 60 then lit "text-yellow-600"
  else lit "text-red-600".

(** [getATSColor(x)] for whatever [x] is: [x.toLowerCase()] can only be
    called on a string. *)
Definition getATSColor_of (x : JsVal) : JsError + jsstring :=
  match x with
  | Some (JString s) => inr (getATSColor toLowerCase s)
  | _ => inl TypeError
  end.

Definition renderSkillsDistribution (analysisResult : JValue)
  : JsError + option PieChart :=
  if negb (truthy analysisResult) then inr None
  else
    let* strong :=
      count_of (lit "technical_proficiency") (lit "strong") analysisResult in
    let* moderate :=
      count_of (lit "technical_proficiency") (lit "moderate") analysisResult in
    let* weak :=
      count_of (lit "technical_proficiency") (lit "weak_or_missing")
               analysisResult in
    let data := [(lit "Strong", strong); (lit "Moderate", moderate);
                 (lit "Weak", weak)] in
    inr (Some {| pie_data := data;
                 pie_fills := map cell_fill (seq 0 (List.length data)) |}).

Definition renderRequirementsCoverage (analysisResult : JValue)
  : JsError + option BarChart :=
  if negb (truthy analysisResult) then inr None
  else
    let* met :=
      count_of (lit "job_requirements_coverage") (lit "met_requirements")
               analysisResult in
    let* missing :=
      count_of (lit "job_requirements_coverage") (lit "missing_requirements")
               analysisResult in
    inr (Some {| bar_name := lit "Requirements";
                 bar_met := met; bar_missing := missing |}).

Definition renderAnalysisResult (analysisResult : JValue)
  : JsError + option Report :=
  if negb (truthy analysisResult) then inr None
  else
    let v := analysisResult in
    let* resume_score := member (lit "resume_score") (Some v) in
    let* ats := member (lit "ats_compatibility") (Some v) in
    let* ats_color := getATSColor_of ats in
    let* readability := member (lit "readability_score") (Some v) in
    let* percentage := read2 (lit "skills_match") (lit "match_percentage") v in
    let* missing := items_of (lit "skills_match") (lit "missing") v in
    let* summary := member (lit "overall_summary") (Some v) in
    let* pie := renderSkillsDistribution v in
    let* strong := items_of (lit "technical_proficiency") (lit "strong") v in
    let* moderate :=
      items_of (lit "technical_proficiency") (lit "moderate") v in
    let* weak :=
      items_of (lit "technical_proficiency") (lit "weak_or_missing") v in
    let* present :=
      items_of (lit "keywords_analysis") (lit "present_keywords") v in
    let* absent :=
      items_of (lit "keywords_analysis") (lit "missing_keywords") v in
    let* bar := renderRequirementsCoverage v in
    let* met :=
      items_of (lit "job_requirements_coverage") (lit "met_requirements") v in
    let* unmet :=
      items_of (lit "job_requirements_coverage") (lit "missing_requirements")
               v in
    let* soft := items_of (lit "soft_skills_match") (lit "matched") v in
    let* soft_missing := items_of (lit "soft_skills_match") (lit "missing") v in
    let* resume_length := member (lit "resume_length") (Some v) in
    let* tone := member (lit "tone_of_language") (Some v) in
    let* formatting := items_at (lit "formatting_issues") v in
    let* grammar := items_at (lit "grammar_issues") v in
    let* advice := items_at (lit "recommendations") v in
    inr (Some
      {| resume_score_class := getScoreColor resume_score;
         resume_score_text := resume_score;
         ats_class := ats_color;
         ats_text := ats;
         readability_class := getScoreColor readability;
         readability_text := readability;
         skills_match_class := getScoreColor percentage;
         skills_match_text := percentage;
         missing_skills := missing;
         summary_text := summary;
         skills_distribution := pie;
         strong_skills := strong;
         moderate_skills := moderate;
         weak_skills := weak;
         present_keywords := present;
         missing_keywords := absent;
         requirements_coverage := bar;
         met_requirements := met;
         missing_requirements := unmet;
         present_soft_skills := soft;
         missing_soft_skills := soft_missing;
         length_text := resume_length;
         tone_text := tone;
         formatting_issues := formatting;
         grammar_issues := grammar;
         recommendations := advice |}).

End Runtime.

(** *** The [AnalysisResult] interface

    The shape the TypeScript interface declares: strings, numbers, arrays
    of strings, and objects of those one level down. *)
Inductive TsLeaf : Type := TsString | TsNumber | TsStringArray.

Inductive TsField : Type :=
| Plain (t : TsLeaf)
| Nested (fields : list (jsstring * TsLeaf)).

Definition AnalysisResult : list (jsstring * TsField) :=
  [ (lit "overall_summary", Plain TsString);
    (lit "resume_score", Plain TsNumber);
    (lit "ats_compatibility", Plain TsString);
    (lit "resume_length", Plain TsString);
    (lit "readability_score", Plain TsNumber);
    (lit "skills_match",
       Nested [(lit "matched", TsStringArray); (lit "missing", TsStringArray);
               (lit "match_percentage", TsNumber)]);
    (lit "soft_skills_match",
       Nested [(lit "matched", TsStringArray); (lit "missing", TsStringArray)]);
    (lit "technical_proficiency",
       Nested [(lit "strong", TsStringArray); (lit "moderate", TsStringArray);
               (lit "weak_or_missing", TsStringArray)]);
    (lit "keywords_analysis",
       Nested [(lit "present_keywords", TsStringArray);
               (lit "missing_keywords", TsStringArray)]);
    (lit "job_requirements_coverage",
       Nested [(lit "met_requirements", TsStringArray);
               (lit "missing_requirements", TsStringArray)]);
    (lit "experience_alignment",
       Nested [(lit "aligned_experience", TsStringArray);
               (lit "missing_experience_areas", TsStringArray)]);
    (lit "tone_of_language", Plain TsString);
    (lit "formatting_issues", Plain TsStringArray);
    (lit "grammar_issues", Plain TsStringArray);
    (lit "recommendations", Plain TsStringArray) ].

Definition is_string_value (v : JValue) : bool :=
  match v with JString _ => true | _ => false end.

Definition has_leaf (t : TsLeaf) (x : JsVal) : bool :=
  match t, x with
  | TsString, Some (JString _) => true
  | TsNumber, Some (JNumber _ _) => true
  | TsStringArray, Some (JArray items) => forallb is_string_value items
  | _, _ => false
  end.

Definition has_field (t : TsField) (x : JsVal) : bool :=
  match t with
  | Plain l => has_leaf l x
  | Nested fields =>
      match x with
      | Some (JObject ms) =>
          forallb (fun nl => has_leaf (snd nl) (lookup (fst nl) ms)) fields
      | _ => false
      end
  end.

(** A decoded value of the declared shape. *)
Definition conforms (v : JValue) : bool :=
  match v with
  | JObject ms =>
      forallb (fun nt => has_field (snd nt) (lookup (fst nt) ms)) AnalysisResult
  | _ => false
  end.

End Render.

(** ** Runs on the page *)

Module Flow.

Import App Run Ui.

(** The notices meant for the user: the alerts and the toasts. *)
Definition user_facing (n : Notice) : bool :=
  match n with
  | ConsoleError _ _ => false
  | Alert _ | ToastError _ | ToastSuccess _ => true
  end.

(** The error a run that has sent its request fails with, if it fails:
    the reason the service call is rejected with, the [TypeError] of an
    answer without choices, the [SyntaxError] of a text that is not
    JSON. *)
Definition originating_error (w : World) (s : AppState) (file : File)
  : option JsError :=
  match groq_outcome w (request_of w s file) with
  | inl e => Some e
  | inr c =>
      match raw_content c with
      | None => Some TypeError
      | Some raw =>
          match JSON_parse raw with
          | None => Some SyntaxError
          | Some _ => None
          end
      end
  end.

(** The promise the first run in flight awaits settles as the world
    says. *)
Definition settle_as (w : World) (p : Page) : Page :=
  match pending p with
  | t :: _ =>
      match answer w t with
      | Some o => settled 0 o p
      | None => p
      end
  | [] => p
  end.

(** A task started on the page: it runs to its first [await]. *)
Definition spawn (t : Task unit) (p : Page) : Page :=
  let '(t', s, evs) := advance t (app p) in
  {| app := s; pending := pending p ++ in_flight t'; shown := shown p ++ evs |}.

(** [n] promises settle as the world says, one after the other. *)
Fixpoint drive (w : World) (n : nat) (p : Page) : Page :=
  match n with
  | O => p
  | S n' => drive w n' (settle_as w p)
  end.

(** A page with nothing in flight. *)
Definition idle (s : AppState) (evs : list Event) : Page :=
  {| app := s; pending := []; shown := evs |}.

(** A click on the Analyze button, and then the extraction and the service
    answering as the world says. *)
Definition click_and_wait (w : World) (p : Page) : Page :=
  settle_as w (settle_as w (click p)).

(** The user changing the inputs: another file, another job description. *)
Definition is_edit (i : Input) : bool :=
  match i with
  | Upload _ | EditJobDescription _ => true
  | Click | Settle _ _ => false
  end.

(** [Awaits n t]: on every way through [t] at most [n] promises are
    awaited. *)
Inductive Awaits {A : Type} : nat -> Task A -> Prop :=
| Awaits_return (n : nat) (a : A) : Awaits n (Return a)
| Awaits_throw (n : nat) (e : JsError) : Awaits n (Throw e)
| Awaits_notify (n : nat) (x : Notice) (k : Task A) :
    Awaits n k -> Awaits n (Notify x k)
| Awaits_setLoading (n : nat) (b : bool) (k : Task A) :
    Awaits n k -> Awaits n (SetLoading b k)
| Awaits_setAnalysisResult (n : nat) (v : JValue) (k : Task A) :
    Awaits n k -> Awaits n (SetAnalysisResult v k)
| Awaits_pdfToText (n : nat) (file : File) (k : JsError + jsstring -> Task A) :
    (forall r, Awaits n (k r)) -> Awaits (S n) (AwaitPdfToText file k)
| Awaits_completion (n : nat) (req : Request)
                    (k : JsError + Completion -> Task A) :
    (forall r, Awaits n (k r)) -> Awaits (S n) (AwaitCompletion req k).

End Flow.

(** ** More sample inputs *)

Module Cases.

Import App Run Ui Samples Render.

(** [x >= n] on the numbers written as integers; [false] elsewhere. *)
Definition integer_at_least (x : JsVal) (n : Z) : bool :=
  match x with
  | Some (JNumber m 0) => (n <=? m)%Z
  | _ => false
  end.

(** The document cannot be read. *)
Definition world_unreadable : World :=
  {| pdf_outcome := fun _ => inl (Rejection (lit "Invalid PDF structure"));
     groq_outcome := fun _ =>
       inr {| choices := [ {| message_content := Some empty_object |} ] |} |}.

(** The service answers with a [null] content, and with no choice at
    all. *)
Definition world_null_content : World :=
  {| pdf_outcome := fun _ => inr resume_text;
     groq_outcome := fun _ =>
       inr {| choices := [ {| message_content := None |} ] |} |}.

Definition world_no_choice : World :=
  {| pdf_outcome := fun _ => inr resume_text;
     groq_outcome := fun _ => inr {| choices := [] |} |}.

(** The service answers with two choices, the first as in
    [world_score_150]. *)
Definition world_two_choices : World :=
  {| pdf_outcome := fun _ => inr resume_text;
     groq_outcome := fun _ =>
       inr {| choices := [ {| message_content := Some (payload "150" "High") |};
                           {| message_content := Some not_json |} ] |} |}.

(** The service answers with the number zero. *)
Definition world_zero : World := answering resume_text (lit "0").

(** The response of [world_score_150], decoded. *)
Definition decoded_150 : JValue :=
  match JSON_parse (payload "150" "High") with
  | Some v => v
  | None => JNull
  end.

(** A page on which the Analyze button is enabled. *)
Definition ready_page : Page :=
  {| app := ready; pending := []; shown := [] |}.

(** While the run is in flight the user picks another file and rewrites
    the job description. *)
Definition second_thoughts : list Input :=
  [Upload [FileHandle 2]; EditJobDescription (lit "Frontend engineer, React")].

End Cases.

(** ** The paths of a run *)

Module Paths.

Import App Run.

#[local] Arguments lit : simpl never.
#[local] Arguments template : simpl never.
#[local] Arguments build_prompt : simpl never.
#[local] Arguments build_request : simpl never.
#[local] Arguments trim : simpl never.
#[local] Arguments JSON_parse : simpl never.

Lemma inputs_present_inv (s : AppState) :
  inputs_present s = true ->
  exists file, resumeFile s = Some file /\ falsy (jobDescription s) = false.
Proof.
  unfold inputs_present. destruct (resumeFile s) as [file|]; [|discriminate].
  intros H. exists file. split; [reflexivity|].
  now destruct (falsy (jobDescription s)).
Qed.

(** Missing input: one alert, nothing else. *)
Lemma run_missing_input (w : World) (s : AppState) :
  inputs_present s = false ->
  run w s =
  {| returned := inr tt;
     final := s;
     events :=
       [Shown (Alert (lit "Please upload a resume and provide a job description"))] |}.
Proof.
  unfold inputs_present, run, analyzeResume.
  destruct (resumeFile s); [|reflexivity].
  destruct (falsy (jobDescription s)); [reflexivity|discriminate].
Qed.

Ltac enter_run Hfile Hjd :=
  unfold run, analyzeResume, request_of, extracted, extraction_events,
    raw_content in *;
  rewrite Hfile, Hjd; simpl.

(** Blank extraction: the error toast, and no request. *)
Lemma run_blank (w : World) (s : AppState) (file : File) :
  resumeFile s = Some file ->
  falsy (jobDescription s) = false ->
  falsy (trim (extracted w file)) = true ->
  run w s =
  {| returned := inr tt;
     final := with_loading false s;
     events := extraction_events w file ++
               [Shown (ToastError (lit "Failed to Scan Resume"))] |}.
Proof.
  intros Hfile Hjd Hblank. enter_run Hfile Hjd.
  destruct (pdf_outcome w file) as [e|text]; simpl in *;
    try rewrite Hblank; reflexivity.
Qed.

(** The service call fails. *)
Lemma run_service_error (w : World) (s : AppState) (file : File) (e : JsError) :
  resumeFile s = Some file ->
  falsy (jobDescription s) = false ->
  falsy (trim (extracted w file)) = false ->
  groq_outcome w (request_of w s file) = inl e ->
  run w s =
  {| returned := inr tt;
     final := with_loading false s;
     events := extraction_events w file ++
               CalledGroq (request_of w s file) :: failure_events e |}.
Proof.
  intros Hfile Hjd Htext Hcall. enter_run Hfile Hjd.
  destruct (pdf_outcome w file) as [e'|text]; simpl in *;
    try discriminate; rewrite Htext; simpl; rewrite Hcall; reflexivity.
Qed.

(** The service answers without any choice. *)
Lemma run_no_choice (w : World) (s : AppState) (file : File) (c : Completion) :
  resumeFile s = Some file ->
  falsy (jobDescription s) = false ->
  falsy (trim (extracted w file)) = false ->
  groq_outcome w (request_of w s file) = inr c ->
  raw_content c = None ->
  run w s =
  {| returned := inr tt;
     final := with_loading false s;
     events := extraction_events w file ++
               CalledGroq (request_of w s file) :: failure_events TypeError |}.
Proof.
  intros Hfile Hjd Htext Hcall Hraw. enter_run Hfile Hjd.
  destruct (pdf_outcome w file) as [e'|text]; simpl in *;
    try discriminate; rewrite Htext; simpl; rewrite Hcall; simpl;
    unfold first_content; destruct (choices c); try discriminate; reflexivity.
Qed.

(** The answer is not JSON. *)
Lemma run_bad_json (w : World) (s : AppState) (file : File) (c : Completion)
      (raw : jsstring) :
  resumeFile s = Some file ->
  falsy (jobDescription s) = false ->
  falsy (trim (extracted w file)) = false ->
  groq_outcome w (request_of w s file) = inr c ->
  raw_content c = Some raw ->
  JSON_parse raw = None ->
  run w s =
  {| returned := inr tt;
     final := with_loading false s;
     events := extraction_events w file ++
               CalledGroq (request_of w s file) :: failure_events SyntaxError |}.
Proof.
  intros Hfile Hjd Htext Hcall Hraw Hparse. enter_run Hfile Hjd.
  destruct (pdf_outcome w file) as [e'|text]; simpl in *;
    try discriminate; rewrite Htext; simpl; rewrite Hcall; simpl;
    unfold first_content; destruct (choices c) as [|ch chs]; try discriminate;
    simpl; unfold JSON_parse_content;
    injection Hraw as Hraw; rewrite Hraw, Hparse; reflexivity.
Qed.

(** The answer is JSON: it is stored. *)
Lemma run_success (w : World) (s : AppState) (file : File) (c : Completion)
      (raw : jsstring) (v : JValue) :
  resumeFile s = Some file ->
  falsy (jobDescription s) = false ->
  falsy (trim (extracted w file)) = false ->
  groq_outcome w (request_of w s file) = inr c ->
  raw_content c = Some raw ->
  JSON_parse raw = Some v ->
  run w s =
  {| returned := inr tt;
     final := with_loading false (with_analysisResult v s);
     events := extraction_events w file ++
               [CalledGroq (request_of w s file);
                Shown (ToastSuccess (lit "Analysis complete!"))] |}.
Proof.
  intros Hfile Hjd Htext Hcall Hraw Hparse. enter_run Hfile Hjd.
  destruct (pdf_outcome w file) as [e'|text]; simpl in *;
    try discriminate; rewrite Htext; simpl; rewrite Hcall; simpl;
    unfold first_content; destruct (choices c) as [|ch chs]; try discriminate;
    simpl; unfold JSON_parse_content;
    injection Hraw as Hraw; rewrite Hraw, Hparse; reflexivity.
Qed.

(** The run is the function [run_by_cases] of how the collaborators
    answer. *)
Lemma run_characterised (w : World) (s : AppState) :
  run w s = run_by_cases w s.
Proof.
  unfold run_by_cases.
  destruct (resumeFile s) as [file|] eqn:Hfile.
  2:{ apply run_missing_input. unfold inputs_present. now rewrite Hfile. }
  destruct (falsy (jobDescription s)) eqn:Hjd.
  { apply run_missing_input. unfold inputs_present. now rewrite Hfile, Hjd. }
  destruct (falsy (trim (extracted w file))) eqn:Htext.
  { now apply run_blank. }
  cbv zeta.
  destruct (groq_outcome w (request_of w s file)) as [e|c] eqn:Hcall.
  { unfold finish. rewrite <- app_assoc. now apply run_service_error. }
  destruct (raw_content c) as [raw|] eqn:Hraw.
  2:{ unfold finish. rewrite <- app_assoc.
      now apply run_no_choice with (c := c). }
  destruct (JSON_parse raw) as [v|] eqn:Hparse; unfold finish;
    rewrite <- app_assoc.
  - now apply run_success with (c := c) (raw := raw).
  - now apply run_bad_json with (c := c) (raw := raw).
Qed.

End Paths.

(** ** Facts about the runtime helpers and about runs *)

Module Facts.

Import App Run Paths Ui.

Lemma trimStart_white (s : jsstring) :
  forallb is_white s = true -> trimStart s = [].
Proof.
  induction s as [|c s IH]; simpl; [reflexivity|].
  intros H. apply andb_prop in H as [Hc Hs]. rewrite Hc. now apply IH.
Qed.

Lemma trimStart_nil (s : jsstring) :
  trimStart s = [] -> forallb is_white s = true.
Proof.
  induction s as [|c s IH]; simpl; [reflexivity|].
  destruct (is_white c); [exact IH|discriminate].
Qed.

(** [trim] leaves nothing exactly of the strings made of white space. *)
Lemma trim_blank_iff (s : jsstring) :
  trim s = [] <-> forallb is_white s = true.
Proof.
  unfold trim, trimEnd. split.
  - intros H. apply (f_equal (@rev N)) in H. rewrite rev_involutive in H.
    simpl in H. apply trimStart_nil in H. rewrite forallb_forall in H.
    destruct (trimStart s) as [|c r] eqn:E; [now apply trimStart_nil|].
    exfalso.
    assert (Hc : is_white c = true) by (apply H, in_rev; rewrite rev_involutive; now left).
    destruct s as [|d s']; [discriminate|].
    clear H. revert d E. induction s' as [|x s' IH]; intros d E; simpl in E.
    + destruct (is_white d) eqn:Hd; [discriminate|]. congruence.
    + destruct (is_white d) eqn:Hd; [|congruence].
      now apply (IH x).
  - intros H. rewrite (trimStart_white _ H). reflexivity.
Qed.

(** [JSON.parse] on a few texts. *)
Example parse_scalars :
  map JSON_parse [lit "null"; lit " true "; lit "-12.50e3"; lit "0"]
  = [Some JNull; Some (JBool true); Some (JNumber (-1250) 1);
     Some (JNumber 0 0)].
Proof. reflexivity. Qed.

Example parse_nested :
  JSON_parse (template "{'a': [1, {'b': []}], 'c': 'x', 'a': false}")
  = Some (JObject [(lit "a", JArray [JNumber 1 0; JObject [(lit "b", JArray [])]]);
                   (lit "c", JString (lit "x"));
                   (lit "a", JBool false)]).
Proof. reflexivity. Qed.

Example parse_last_member_wins :
  option_map (get (lit "a"))
    (JSON_parse (template "{'a': [1, {'b': []}], 'c': 'x', 'a': false}"))
  = Some (Some (JBool false)).
Proof. reflexivity. Qed.

Example parse_rejects :
  map JSON_parse
    [template "{not json"; lit ""; lit "[1,]"; template "{'a':1,}";
     lit "01"; lit "1."; lit "nul"; lit "[1 2]"; template "'open";
     lit "[}"; lit "1 2"; template "{'a' 1}"]
  = repeat None 12.
Proof. reflexivity. Qed.

Lemma falsy_nil_iff (s : jsstring) : falsy s = true <-> s = [].
Proof. destruct s; simpl; split; congruence. Qed.

Lemma str_eqb_eq (a b : jsstring) : str_eqb a b = true <-> a = b.
Proof.
  revert b. induction a as [|x a IH]; intros [|y b]; simpl;
    try (split; congruence).
  rewrite andb_true_iff, N.eqb_eq, IH. split.
  - intros [-> ->]. reflexivity.
  - intros [= -> ->]. now split.
Qed.

Lemma calls_to_groq_app (a b : list Event) :
  calls_to_groq (a ++ b) = calls_to_groq a ++ calls_to_groq b.
Proof. apply flat_map_app. Qed.

Lemma notices_app (a b : list Event) :
  notices (a ++ b) = notices a ++ notices b.
Proof. apply flat_map_app. Qed.

Lemma extraction_calls_no_groq (w : World) (file : File) :
  calls_to_groq (extraction_events w file) = [].
Proof. unfold extraction_events. now destruct (pdf_outcome w file). Qed.

Lemma extraction_no_success (w : World) (file : File) :
  existsb is_success_notice (notices (extraction_events w file)) = false.
Proof. unfold extraction_events. now destruct (pdf_outcome w file). Qed.

Lemma succeeded_after_extraction (w : World) (file : File) (s : AppState)
      (rest : list Event) :
  succeeded (finish s (extraction_events w file ++ rest))
  = existsb is_success_notice (notices rest).
Proof.
  unfold succeeded, finish. cbn [events].
  now rewrite notices_app, existsb_app, extraction_no_success.
Qed.

(** The requests of a run: one, with the prompt built from the extracted
    text and the job description, once the text is known not to be blank;
    none before. *)
Lemma requests_of_run (w : World) (s : AppState) :
  calls_to_groq (events (run w s)) =
  match resumeFile s with
  | Some file =>
      if falsy (jobDescription s) then []
      else if falsy (trim (extracted w file)) then []
      else [request_of w s file]
  | None => []
  end.
Proof.
  rewrite run_characterised. unfold run_by_cases.
  destruct (resumeFile s) as [file|]; [|reflexivity].
  destruct (falsy (jobDescription s)); [reflexivity|].
  destruct (falsy (trim (extracted w file))).
  { unfold finish. cbn [events].
    now rewrite calls_to_groq_app, extraction_calls_no_groq. }
  cbv zeta.
  destruct (groq_outcome w (request_of w s file)) as [e|c];
    [|destruct (raw_content c) as [raw|]; [destruct (JSON_parse raw)|]];
    unfold finish; cbn [events];
    now rewrite !calls_to_groq_app, extraction_calls_no_groq.
Qed.

(** A run that hands [raw] to [JSON.parse]. *)
Lemma run_answered (w : World) (s : AppState) (raw : jsstring) :
  response_text w s = Some raw ->
  exists file,
    resumeFile s = Some file /\
    run w s =
    match JSON_parse raw with
    | Some v =>
        finish (with_loading false (with_analysisResult v s))
          (extraction_events w file ++
           [CalledGroq (request_of w s file);
            Shown (ToastSuccess (lit "Analysis complete!"))])
    | None =>
        finish (with_loading false s)
          (extraction_events w file ++
           CalledGroq (request_of w s file) :: failure_events SyntaxError)
    end.
Proof.
  unfold response_text. intros H.
  destruct (resumeFile s) as [file|] eqn:Hfile; [|discriminate].
  destruct (falsy (jobDescription s)) eqn:Hjd; [discriminate|].
  destruct (falsy (trim (extracted w file))) eqn:Htext; [discriminate|].
  destruct (groq_outcome w (request_of w s file)) as [e|c] eqn:Hcall;
    [discriminate|].
  exists file. split; [reflexivity|].
  destruct (JSON_parse raw) as [v|] eqn:Hparse.
  - now apply run_success with (c := c) (raw := raw).
  - now apply run_bad_json with (c := c) (raw := raw).
Qed.

(** When the answer decodes, the run succeeds and stores the decoded value
    itself. *)
Lemma decoded_is_stored (w : World) (s : AppState) (raw : jsstring) (v : JValue) :
  response_text w s = Some raw ->
  JSON_parse raw = Some v ->
  succeeded (run w s) = true /\ analysisResult (final (run w s)) = v.
Proof.
  intros Hraw Hparse. destruct (run_answered w s Hraw) as (file & _ & Hrun).
  rewrite Hparse in Hrun. rewrite Hrun. split.
  - now rewrite succeeded_after_extraction.
  - reflexivity.
Qed.

(** The final state of any run. *)
Lemma final_of_run (w : World) (s : AppState) :
  final (run w s) =
  match response_text w s with
  | Some raw =>
      match JSON_parse raw with
      | Some v => with_loading false (with_analysisResult v s)
      | None => with_loading false s
      end
  | None => if inputs_present s then with_loading false s else s
  end.
Proof.
  rewrite run_characterised.
  unfold run_by_cases, response_text, inputs_present.
  destruct (resumeFile s) as [file|]; [|reflexivity].
  destruct (falsy (jobDescription s)); [reflexivity|].
  destruct (falsy (trim (extracted w file))); [reflexivity|].
  cbv zeta.
  destruct (groq_outcome w (request_of w s file)) as [e|c]; [reflexivity|].
  destruct (raw_content c) as [raw|]; [|reflexivity].
  now destruct (JSON_parse raw).
Qed.

(** A run shows the success toast exactly when the answer decoded. *)
Lemma succeeded_of_run (w : World) (s : AppState) :
  succeeded (run w s) =
  match response_text w s with
  | Some raw => match JSON_parse raw with Some _ => true | None => false end
  | None => false
  end.
Proof.
  rewrite run_characterised.
  unfold run_by_cases, response_text.
  destruct (resumeFile s) as [file|]; [|reflexivity].
  destruct (falsy (jobDescription s)); [reflexivity|].
  destruct (falsy (trim (extracted w file))).
  { now rewrite succeeded_after_extraction. }
  cbv zeta.
  destruct (groq_outcome w (request_of w s file)) as [e|c];
    [|destruct (raw_content c) as [raw|]; [destruct (JSON_parse raw)|]];
    rewrite <- app_assoc; now rewrite succeeded_after_extraction.
Qed.

(** No exception escapes [analyzeResume]. *)
Lemma run_returns (w : World) (s : AppState) : returned (run w s) = inr tt.
Proof.
  rewrite run_characterised. unfold run_by_cases.
  destruct (resumeFile s) as [file|]; [|reflexivity].
  destruct (falsy (jobDescription s)); [reflexivity|].
  destruct (falsy (trim (extracted w file))); [reflexivity|].
  cbv zeta.
  destruct (groq_outcome w (request_of w s file)) as [e|c]; [reflexivity|].
  destruct (raw_content c) as [raw|]; [|reflexivity].
  now destruct (JSON_parse raw).
Qed.

End Facts.

(** ** The single-flight invariant of the page *)

Module SingleFlight.

Import App Run Ui Facts.

Lemma analyzeResume_Resets (file : File) (jd : jsstring) (b : bool) :
  falsy jd = false -> Resets b (analyzeResume (Some file) jd).
Proof.
  intros Hjd. unfold analyzeResume. rewrite Hjd. simpl.
  apply Resets_setLoading, Resets_pdfToText. intros [e|text]; simpl.
  - repeat constructor.
  - destruct (falsy (trim text)); simpl; [repeat constructor|].
    apply Resets_completion. intros [e|c]; simpl; [repeat constructor|].
    unfold first_content. destruct (choices c) as [|ch chs]; simpl;
      [repeat constructor|].
    unfold JSON_parse_content.
    destruct (JSON_parse _); simpl; repeat constructor.
Qed.

Lemma advance_Resets (b : bool) (t : Task unit) :
  Resets b t ->
  forall s, loading s = b ->
  (in_flight (fst (fst (advance t s))) = [] /\
   loading (snd (fst (advance t s))) = false)
  \/ (in_flight (fst (fst (advance t s))) = [fst (fst (advance t s))] /\
      loading (snd (fst (advance t s))) = true /\
      Resets true (fst (fst (advance t s)))).
Proof.
  induction 1 as [ | b n k _ IH | b b' k _ IH | b v k _ IH
                   | file k Hk _ | req k Hk _ ]; intros s Hs; simpl.
  - left. split; [reflexivity|exact Hs].
  - specialize (IH s Hs). destruct (advance k s) as [[t' s'] evs]. exact IH.
  - apply IH. reflexivity.
  - apply IH. exact Hs.
  - right. repeat split; [exact Hs|]. now constructor.
  - right. repeat split; [exact Hs|]. now constructor.
Qed.

Lemma resume_Resets (t t1 : Task unit) (o : Settled) :
  Resets true t -> resume t o = Some t1 -> Resets true t1.
Proof.
  intros Ht. inversion Ht; subst; destruct o; simpl; try discriminate;
    intros [= <-]; auto.
Qed.

Lemma invoke_single_flight (p : Page) :
  pending p = [] -> disabled (app p) = false -> single_flight (invoke p).
Proof.
  intros Hnone Hen. unfold disabled in Hen.
  apply orb_false_iff in Hen as [Hen Hjd].
  apply orb_false_iff in Hen as [Hload Hfile].
  destruct (resumeFile (app p)) as [file|] eqn:Ef; [|discriminate].
  pose proof (@advance_Resets _ _
                (@analyzeResume_Resets file _ (loading (app p)) Hjd)
                (app p) eq_refl) as H.
  unfold invoke. rewrite Ef, Hnone.
  destruct (advance _ (app p)) as [[t s] evs]. simpl in *.
  destruct H as [[Hfl Hl] | (Hfl & Hl & Hr)]; rewrite Hfl.
  - left. now split.
  - right. exists t. now repeat split.
Qed.

Lemma settled_single_flight (i : nat) (o : Settled) (p : Page) :
  single_flight p -> single_flight (settled i o p).
Proof.
  intros Hp. unfold settled.
  destruct Hp as [[Hnone Hl] | (t & Hone & Hfl & Hl & Hr)].
  - rewrite Hnone. destruct i; simpl; left; now split.
  - rewrite Hone. destruct i as [|i]; simpl.
    2:{ destruct i; simpl; right; exists t; now repeat split. }
    destruct (resume t o) as [t1|] eqn:Eres.
    2:{ right. exists t. now repeat split. }
    pose proof (@advance_Resets _ _ (@resume_Resets _ _ o Hr Eres)
                (app p) Hl) as H.
    destruct (advance t1 (app p)) as [[t' s] evs]. simpl in *.
    rewrite app_nil_r.
    destruct H as [[Hfl' Hl'] | (Hfl' & Hl' & Hr')]; rewrite Hfl'.
    + left. now split.
    + right. exists t'. now repeat split.
Qed.

Lemma react_single_flight (p : Page) (i : Input) :
  single_flight p -> single_flight (react p i).
Proof.
  intros Hp. destruct i as [files | v | | n o]; simpl.
  - unfold handleResumeUpload. destruct files; [exact Hp|].
    destruct Hp as [[Hnone Hl] | (t & Hone & Hfl & Hl & Hr)]; simpl.
    + left. now split.
    + right. exists t. now repeat split.
  - destruct Hp as [[Hnone Hl] | (t & Hone & Hfl & Hl & Hr)];
      unfold editJobDescription; simpl.
    + left. now split.
    + right. exists t. now repeat split.
  - unfold click. destruct (disabled (app p)) eqn:Hd; [exact Hp|].
    destruct Hp as [[Hnone Hl] | (t & Hone & Hfl & Hl & Hr)].
    + now apply invoke_single_flight.
    + unfold disabled in Hd. rewrite Hl in Hd. discriminate.
  - now apply settled_single_flight.
Qed.

Lemma reachable_single_flight (p : Page) :
  reachable p -> single_flight p.
Proof.
  induction 1 as [|p i _ IH].
  - left. now split.
  - now apply react_single_flight.
Qed.

(** Running to the end is advancing to the next [await], settling it as
    the world says, and running on. *)
Lemma exec_advance_ended {A : Type} (w : World) (t : Task A) (s : AppState)
      (a : JsError + A) :
  ended (fst (fst (advance t s))) = Some a ->
  exec w t s =
  {| returned := a;
     final := snd (fst (advance t s));
     events := snd (advance t s) |}.
Proof.
  revert s.
  induction t as [x | e | n k IH | b k IH | v k IH | file k _ | req k _];
    intros s; simpl; try discriminate.
  - now intros [= <-].
  - now intros [= <-].
  - specialize (IH s). destruct (advance k s) as [[t' s'] evs]. simpl in *.
    intros H. now rewrite (IH H).
  - apply IH.
  - apply IH.
Qed.

Lemma exec_advance_suspended {A : Type} (w : World) (t t1 : Task A)
      (s : AppState) (o : Settled) :
  answer w (fst (fst (advance t s))) = Some o ->
  resume (fst (fst (advance t s))) o = Some t1 ->
  exec w t s =
  {| returned := returned (exec w t1 (snd (fst (advance t s))));
     final := final (exec w t1 (snd (fst (advance t s))));
     events := snd (advance t s) ++
               events (exec w t1 (snd (fst (advance t s)))) |}.
Proof.
  revert s.
  induction t as [x | e | n k IH | b k IH | v k IH | file k _ | req k _];
    intros s; simpl; try discriminate.
  - specialize (IH s). destruct (advance k s) as [[t' s'] evs]. simpl in *.
    intros Ho Hr. now rewrite (IH Ho Hr).
  - apply IH.
  - apply IH.
  - intros [= <-] [= <-]. reflexivity.
  - intros [= <-] [= <-]. reflexivity.
Qed.

Lemma reachable_fold (inputs : list Input) :
  forall p, reachable p -> reachable (fold_left react inputs p).
Proof.
  induction inputs as [|i l IH]; intros p Hp; simpl; [exact Hp|].
  apply IH. now constructor.
Qed.

Lemma reachable_page_after (inputs : list Input) :
  reachable (page_after inputs).
Proof. apply reachable_fold. constructor. Qed.

End SingleFlight.

(** ** The properties of the specification *)

Module Properties.

Import App Run Ui Paths Facts SingleFlight Samples.

(** *** Response validation *)

(** C1, as amended: for every raw response text the parse step either
    stores a decoded value or fails, and nothing in between.  If the text
    does not decode as JSON the run fails: it shows the failure alert and
    leaves the stored result as it was.  If the text decodes, the run
    succeeds and stores the decoded value as it is, whatever its shape: no
    field is checked for presence or type. *)
Theorem parse_step_accepts_any_json (w : World) (s : AppState) (raw : jsstring) :
  response_text w s = Some raw ->
  (JSON_parse raw = None ->
     succeeded (run w s) = false /\
     final (run w s) = with_loading false s /\
     In (Alert (lit "Failed to analyze resume. Please try again."))
        (notices (events (run w s))))
  /\
  (forall v, JSON_parse raw = Some v ->
     succeeded (run w s) = true /\
     analysisResult (final (run w s)) = v).
Proof.
  intros Hraw. split.
  - intros Hparse. destruct (run_answered w s Hraw) as (file & _ & Hrun).
    rewrite Hparse in Hrun. rewrite Hrun. repeat split.
    + now rewrite succeeded_after_extraction.
    + unfold finish. cbn [events]. rewrite notices_app, in_app_iff.
      right. simpl. right. now left.
  - intros v Hparse. now apply decoded_is_stored with (raw := raw).
Qed.

Lemma parse_step_accepts_any_json_witness :
  response_text world_not_json ready = Some not_json /\
  JSON_parse not_json = None /\
  succeeded (run world_not_json ready) = false /\
  final (run world_not_json ready) = with_loading false ready.
Proof.
  assert (Hraw : response_text world_not_json ready = Some not_json)
    by (vm_compute; reflexivity).
  assert (Hparse : JSON_parse not_json = None) by (vm_compute; reflexivity).
  split; [exact Hraw|]. split; [exact Hparse|].
  destruct (proj1 (@parse_step_accepts_any_json world_not_json ready not_json
                     Hraw) Hparse)
    as (Hfail & Hfinal & _).
  split; [exact Hfail|exact Hfinal].
Defined.

(** C1, as stated, fails: the response [{}] decodes, so the run succeeds
    and stores the empty object, although the validator of the
    specification rejects it for its missing [overall_summary]. *)
Lemma empty_object_is_stored :
  response_text world_empty_object ready = Some empty_object /\
  Spec.verdict empty_object
    = Some (Spec.SchemaMismatch (lit "overall_summary")) /\
  succeeded (run world_empty_object ready) = true /\
  analysisResult (final (run world_empty_object ready)) = JObject [].
Proof. vm_compute. repeat split; reflexivity. Qed.

(** C2, as amended: for every decoded response, whatever stands in
    [resume_score], [readability_score] or [skills_match.match_percentage],
    a number in or out of the range 0 to 100, the run succeeds and stores
    it as received: nothing is clamped, and nothing fails. *)
Theorem bounded_scores_stored_as_received
        (w : World) (s : AppState) (raw : jsstring) (v : JValue) :
  response_text w s = Some raw ->
  JSON_parse raw = Some v ->
  succeeded (run w s) = true /\
  (forall path, In path Spec.bounded_fields ->
     read path (analysisResult (final (run w s))) = read path v).
Proof.
  intros Hraw Hparse.
  destruct (decoded_is_stored w s Hraw Hparse) as [Hok Hstored].
  split; [exact Hok|]. intros path _. now rewrite Hstored.
Qed.

Lemma bounded_scores_stored_as_received_witness :
  succeeded (run world_score_below_zero ready) = true /\
  read [lit "resume_score"]
       (analysisResult (final (run world_score_below_zero ready)))
    = Some (JNumber (-7) 0).
Proof.
  destruct (JSON_parse (payload "-7" "High")) as [v|] eqn:Hparse;
    [|vm_compute in Hparse; discriminate].
  destruct (@bounded_scores_stored_as_received world_score_below_zero ready
              (payload "-7" "High") v ltac:(vm_compute; reflexivity) Hparse)
    as [Hok Hread].
  split; [exact Hok|].
  rewrite (Hread [lit "resume_score"] ltac:(left; reflexivity)).
  vm_compute in Hparse. injection Hparse as <-. vm_compute. reflexivity.
Defined.

(** C2, as stated, fails: a response whose [resume_score] is 150 is stored
    with 150, not with the clamped 100. *)
Lemma resume_score_150_is_not_clamped :
  response_text world_score_150 ready = Some (payload "150" "High") /\
  succeeded (run world_score_150 ready) = true /\
  read [lit "resume_score"]
       (analysisResult (final (run world_score_150 ready)))
    = Some (JNumber 150 0) /\
  Spec.clamp 150 0 = JNumber 100 0.
Proof. vm_compute. repeat split; reflexivity. Qed.

(** C6, as amended: for every decoded response the run succeeds and stores
    the enum-typed fields [ats_compatibility], [resume_length] and
    [tone_of_language] as received; no value makes the parse fail.  The
    only case-insensitive match is the colour of the ATS compatibility:
    the value is lower-cased and compared with [high], [medium] and [low],
    and a value that is none of them gets the default colour. *)
Theorem enum_fields_stored_as_received
        (toLowerCase : jsstring -> jsstring)
        (w : World) (s : AppState) (raw : jsstring) (v : JValue) :
  response_text w s = Some raw ->
  JSON_parse raw = Some v ->
  succeeded (run w s) = true /\
  (forall name, In name Spec.enum_fields ->
     get name (analysisResult (final (run w s))) = get name v) /\
  (forall compatibility,
     (toLowerCase compatibility = lit "high" ->
        getATSColor toLowerCase compatibility = lit "text-green-600") /\
     (toLowerCase compatibility = lit "medium" ->
        getATSColor toLowerCase compatibility = lit "text-yellow-600") /\
     (toLowerCase compatibility = lit "low" ->
        getATSColor toLowerCase compatibility = lit "text-red-600") /\
     (toLowerCase compatibility <> lit "high" ->
      toLowerCase compatibility <> lit "medium" ->
      toLowerCase compatibility <> lit "low" ->
        getATSColor toLowerCase compatibility = lit "text-gray-600")).
Proof.
  intros Hraw Hparse.
  destruct (decoded_is_stored w s Hraw Hparse) as [Hok Hstored].
  split; [exact Hok|]. split.
  - intros name _. now rewrite Hstored.
  - intros c. unfold getATSColor. cbv zeta. repeat split.
    + intros ->. reflexivity.
    + intros ->. reflexivity.
    + intros ->. reflexivity.
    + intros Hh Hm Hl.
      destruct (str_eqb (toLowerCase c) (lit "high")) eqn:E1;
        [apply str_eqb_eq in E1; contradiction|].
      destruct (str_eqb (toLowerCase c) (lit "medium")) eqn:E2;
        [apply str_eqb_eq in E2; contradiction|].
      destruct (str_eqb (toLowerCase c) (lit "low")) eqn:E3;
        [apply str_eqb_eq in E3; contradiction|].
      reflexivity.
Qed.

Lemma enum_fields_stored_as_received_witness :
  succeeded (run world_upper_case ready) = true /\
  get (lit "ats_compatibility")
      (analysisResult (final (run world_upper_case ready)))
    = Some (JString (lit "HIGH")) /\
  getATSColor ascii_toLowerCase (lit "HIGH") = lit "text-green-600".
Proof.
  destruct (JSON_parse (payload "85" "HIGH")) as [v|] eqn:Hparse;
    [|vm_compute in Hparse; discriminate].
  destruct (@enum_fields_stored_as_received ascii_toLowerCase
              world_upper_case ready (payload "85" "HIGH") v
              ltac:(vm_compute; reflexivity) Hparse)
    as (Hok & Hget & Hcolor).
  split; [exact Hok|]. split.
  - rewrite (Hget (lit "ats_compatibility") ltac:(left; reflexivity)).
    vm_compute in Hparse. injection Hparse as <-. vm_compute. reflexivity.
  - apply (proj1 (Hcolor (lit "HIGH"))). vm_compute. reflexivity.
Defined.

(** C6, as stated, fails: a response whose [ats_compatibility] is
    [Banana], a value the validator of the specification rejects, is
    stored by a run that succeeds. *)
Lemma unknown_enum_value_is_stored :
  response_text world_banana ready = Some (payload "85" "Banana") /\
  Spec.verdict (payload "85" "Banana")
    = Some (Spec.SchemaMismatch (lit "ats_compatibility")) /\
  succeeded (run world_banana ready) = true /\
  get (lit "ats_compatibility")
      (analysisResult (final (run world_banana ready)))
    = Some (JString (lit "Banana")).
Proof. vm_compute. repeat split; reflexivity. Qed.

(** *** The stages of a run *)

(** C5: when no document is supplied or the job description is empty, the
    run fails at once: it shows the missing-input alert and does nothing
    else.  The state is untouched, and neither the text extraction nor the
    service is called. *)
Theorem missing_input_fails_before_any_call (w : World) (s : AppState) :
  resumeFile s = None \/ jobDescription s = [] ->
  run w s =
    finish s
      [Shown (Alert (lit "Please upload a resume and provide a job description"))]
  /\ calls_to_pdfToText (events (run w s)) = []
  /\ calls_to_groq (events (run w s)) = [].
Proof.
  intros H.
  assert (Hrun : run w s =
    finish s
      [Shown (Alert (lit "Please upload a resume and provide a job description"))]).
  { apply run_missing_input. unfold inputs_present.
    destruct H as [-> | ->]; [reflexivity|].
    now destruct (resumeFile s). }
  rewrite Hrun. repeat split.
Qed.

Lemma missing_input_fails_before_any_call_witness :
  jobDescription no_job_description = [] /\
  calls_to_pdfToText (events (run world_score_150 no_job_description)) = [] /\
  calls_to_groq (events (run world_score_150 no_job_description)) = [].
Proof.
  assert (H : resumeFile no_job_description = None \/
              jobDescription no_job_description = [])
    by (right; reflexivity).
  split; [reflexivity|].
  exact (proj2 (@missing_input_fails_before_any_call world_score_150
                  no_job_description H)).
Defined.

(** C4: when the text extraction yields the empty string (the document
    reads as empty, or reading it failed), a run with both inputs present
    fails with the scan-failure toast and skips the remaining stages: no
    request is sent to the service and the run does not succeed. *)
Theorem empty_extraction_skips_the_service
        (w : World) (s : AppState) (file : File) :
  resumeFile s = Some file ->
  falsy (jobDescription s) = false ->
  extracted w file = [] ->
  run w s =
    finish (with_loading false s)
      (extraction_events w file ++
       [Shown (ToastError (lit "Failed to Scan Resume"))])
  /\ calls_to_groq (events (run w s)) = []
  /\ succeeded (run w s) = false.
Proof.
  intros Hfile Hjd Hempty.
  assert (Hrun : run w s =
    finish (with_loading false s)
      (extraction_events w file ++
       [Shown (ToastError (lit "Failed to Scan Resume"))])).
  { apply run_blank; try assumption. now rewrite Hempty. }
  split; [exact Hrun|]. split.
  - rewrite requests_of_run, Hfile, Hjd, Hempty. reflexivity.
  - rewrite Hrun. now rewrite succeeded_after_extraction.
Qed.

Lemma empty_extraction_skips_the_service_witness :
  extracted world_empty_text resume_pdf = [] /\
  calls_to_groq (events (run world_empty_text ready)) = [] /\
  succeeded (run world_empty_text ready) = false.
Proof.
  split; [reflexivity|].
  apply (@empty_extraction_skips_the_service world_empty_text ready resume_pdf);
    reflexivity.
Defined.

(** C10: an extracted text made of white space only is treated as an empty
    extraction.  The emptiness test trims the text first, so the run does
    exactly what it does when the text is empty: it shows the scan-failure
    toast, and the service is never called. *)
Theorem blank_extraction_is_an_empty_extraction
        (w w0 : World) (s : AppState) (file : File) (text : jsstring) :
  resumeFile s = Some file ->
  falsy (jobDescription s) = false ->
  pdf_outcome w file = inr text ->
  forallb is_white text = true ->
  pdf_outcome w0 file = inr [] ->
  run w s = run w0 s
  /\ In (ToastError (lit "Failed to Scan Resume")) (notices (events (run w s)))
  /\ calls_to_groq (events (run w s)) = [].
Proof.
  intros Hfile Hjd Hw Hwhite Hw0.
  assert (Hblank : falsy (trim (extracted w file)) = true).
  { unfold extracted. rewrite Hw. apply falsy_nil_iff.
    now apply trim_blank_iff. }
  assert (Hblank0 : falsy (trim (extracted w0 file)) = true).
  { unfold extracted. now rewrite Hw0. }
  rewrite (run_blank w s Hfile Hjd Hblank).
  rewrite (run_blank w0 s Hfile Hjd Hblank0).
  unfold extraction_events. rewrite Hw, Hw0.
  split; [reflexivity|]. split; [|reflexivity].
  simpl. now left.
Qed.

Lemma blank_extraction_is_an_empty_extraction_witness :
  forallb is_white blank_text = true /\
  run world_blank_text ready = run world_empty_text ready /\
  calls_to_groq (events (run world_blank_text ready)) = [].
Proof.
  split; [reflexivity|].
  destruct (@blank_extraction_is_an_empty_extraction
              world_blank_text world_empty_text ready resume_pdf blank_text
              eq_refl eq_refl eq_refl eq_refl eq_refl)
    as (Hsame & _ & Hnone).
  split; [exact Hsame|exact Hnone].
Defined.

(** C7: the prompt is a function of the extracted text and of the job
    description alone.  Two runs, from any states and with any
    collaborators, that read the same text and have the same job
    description send the same request; its content is the fixed head of
    the template, the text, the fixed middle, the job description and the
    fixed tail, so both are embedded whole, and its length is that of the
    template plus theirs. *)
Theorem prompt_is_determined_by_its_inputs
        (w1 w2 : World) (s1 s2 : AppState) (file1 file2 : File)
        (text jd : jsstring) :
  resumeFile s1 = Some file1 ->
  resumeFile s2 = Some file2 ->
  jobDescription s1 = jd ->
  jobDescription s2 = jd ->
  extracted w1 file1 = text ->
  extracted w2 file2 = text ->
  falsy jd = false ->
  falsy (trim text) = false ->
  calls_to_groq (events (run w1 s1)) = calls_to_groq (events (run w2 s2))
  /\ calls_to_groq (events (run w1 s1)) =
       [build_request (prompt_head ++ text ++ prompt_middle ++ jd ++ prompt_tail)]
  /\ List.length (build_prompt text jd)
       = (1412 + List.length text + 19 + List.length jd + 1)%nat.
Proof.
  intros Hf1 Hf2 Hj1 Hj2 Ht1 Ht2 Hjd Htext.
  rewrite !requests_of_run, Hf1, Hf2, Hj1, Hj2, Ht1, Ht2, Hjd, Htext.
  unfold request_of. rewrite Hj1, Hj2, Ht1, Ht2.
  repeat split.
  unfold build_prompt. rewrite !length_app.
  change (List.length prompt_head) with 1412%nat.
  change (List.length prompt_middle) with 19%nat.
  change (List.length prompt_tail) with 1%nat.
  lia.
Qed.

Lemma prompt_is_determined_by_its_inputs_witness :
  calls_to_groq (events (run world_score_150 ready))
  = calls_to_groq (events (run world_not_json other_session)).
Proof.
  apply (@prompt_is_determined_by_its_inputs
           world_score_150 world_not_json ready other_session
           resume_pdf (FileHandle 2) resume_text (jobDescription ready));
    reflexivity.
Defined.

(** *** The state a run leaves *)

(** C8: a run that does not take the success path, be it for missing
    inputs, an empty extraction, a service error or a response that does
    not parse, leaves the stored analysis result as it was; the result is
    replaced on the success path only. *)
Theorem failed_run_keeps_the_stored_result (w : World) (s : AppState) :
  succeeded (run w s) = false ->
  analysisResult (final (run w s)) = analysisResult s.
Proof.
  rewrite succeeded_of_run, final_of_run.
  destruct (response_text w s) as [raw|].
  - destruct (JSON_parse raw); [discriminate|reflexivity].
  - now destruct (inputs_present s).
Qed.

Lemma failed_run_keeps_the_stored_result_witness :
  succeeded (run world_rate_limited analysed_before) = false /\
  analysisResult (final (run world_rate_limited analysed_before))
    = earlier_result.
Proof.
  assert (H : succeeded (run world_rate_limited analysed_before) = false)
    by (vm_compute; reflexivity).
  split; [exact H|].
  exact (@failed_run_keeps_the_stored_result world_rate_limited
           analysed_before H).
Defined.

(** C9, as amended: every invocation of [analyzeResume] that gets past
    the input check comes to its end, once the promises it awaits have
    settled, without an exception escaping and with the loading flag
    [false]: on the early return after a blank extraction, on success, and
    on every caught error.  The missing-input return writes nothing: it
    leaves the state, and so the flag, as it found them.  On the page the
    button starts a run only while not loading and with both inputs
    present, so every run it starts ends not loading, and whenever no run
    is in flight the flag is [false]. *)
Theorem loading_is_reset_past_the_input_check (w : World) (s : AppState) :
  returned (run w s) = inr tt
  /\ (inputs_present s = true -> loading (final (run w s)) = false)
  /\ (inputs_present s = false -> final (run w s) = s)
  /\ (forall inputs,
        disabled (app (page_after inputs)) = false ->
        loading (app (page_after inputs)) = false /\
        inputs_present (app (page_after inputs)) = true /\
        loading (final (run w (app (page_after inputs)))) = false)
  /\ (forall inputs,
        pending (page_after inputs) = [] ->
        loading (app (page_after inputs)) = false).
Proof.
  assert (Hpast : forall s0, inputs_present s0 = true ->
                             loading (final (run w s0)) = false).
  { intros s0 Hin. rewrite final_of_run, Hin.
    destruct (response_text w s0) as [raw|]; [|reflexivity].
    now destruct (JSON_parse raw). }
  split; [apply run_returns|]. split; [apply Hpast|]. split.
  - intros Hin. now rewrite (run_missing_input w s Hin).
  - split.
    + intros inputs Hen. unfold disabled in Hen.
      apply orb_false_iff in Hen as [Hen Hjd].
      apply orb_false_iff in Hen as [Hl Hfile].
      assert (Hin : inputs_present (app (page_after inputs)) = true).
      { unfold inputs_present.
        destruct (resumeFile (app (page_after inputs))); [|discriminate].
        now rewrite Hjd. }
      split; [exact Hl|]. split; [exact Hin|]. now apply Hpast.
    + intros inputs Hnone.
      destruct (reachable_single_flight (reachable_page_after inputs))
        as [[_ Hl] | (t & Hone & _)]; [exact Hl|].
      rewrite Hone in Hnone. discriminate.
Qed.

Lemma loading_is_reset_past_the_input_check_witness :
  inputs_present other_session = true /\
  loading other_session = true /\
  returned (run world_rate_limited other_session) = inr tt /\
  loading (final (run world_rate_limited other_session)) = false.
Proof.
  assert (Hin : inputs_present other_session = true) by reflexivity.
  split; [exact Hin|]. split; [reflexivity|].
  destruct (loading_is_reset_past_the_input_check
              world_rate_limited other_session) as (Hret & Hpast & _).
  split; [exact Hret|exact (Hpast Hin)].
Defined.

(** C9, as stated, fails: invoked with no job description while the
    loading flag is set, [analyzeResume] returns after its alert without
    writing the flag, which stays set. *)
Lemma missing_input_return_leaves_the_flag_set :
  loading (with_loading true no_job_description) = true /\
  inputs_present (with_loading true no_job_description) = false /\
  notices (events (run world_score_150
                       (with_loading true no_job_description)))
    = [Alert (lit "Please upload a resume and provide a job description")] /\
  loading (final (run world_score_150
                      (with_loading true no_job_description))) = true.
Proof. vm_compute. repeat split; reflexivity. Qed.

(** *** One run at a time *)

(** C3, as amended: on the page, whatever the user does and however the
    promises settle, at most one run is ever in flight, and one is in
    flight exactly while the loading flag is set.  While it is, the
    Analyze button is disabled: a click is ignored, so it starts no stage,
    shows nothing and leaves the state and the run in flight as they are.
    No busy error is signalled. *)
Theorem analyze_button_is_single_flight (inputs : list Input) :
  (List.length (pending (page_after inputs)) <= 1)%nat
  /\ (pending (page_after inputs) = [] <->
      loading (app (page_after inputs)) = false)
  /\ (pending (page_after inputs) <> [] ->
      react (page_after inputs) Click = page_after inputs).
Proof.
  destruct (reachable_single_flight (reachable_page_after inputs))
    as [[Hnone Hl] | (t & Hone & _ & Hl & _)].
  - rewrite Hnone, Hl. simpl. repeat split; auto. congruence.
  - rewrite Hone, Hl. simpl. repeat split; auto; try congruence.
    intros _. unfold click, disabled. now rewrite Hl.
Qed.

Lemma analyze_button_is_single_flight_witness :
  pending (page_after first_click) <> [] /\
  react (page_after first_click) Click = page_after first_click.
Proof.
  assert (H : pending (page_after first_click) <> [])
    by (vm_compute; discriminate).
  split; [exact H|].
  exact (proj2 (proj2 (analyze_button_is_single_flight first_click)) H).
Defined.

(** C3, as stated, fails: [analyzeResume] does not look at the loading
    flag.  Invoked again while a first run is awaiting the extraction, it
    is not rejected: it shows nothing, calls the extraction a second time,
    and two runs are in flight. *)
Lemma second_invocation_starts_a_second_run :
  loading (app (page_after first_click)) = true /\
  List.length (pending (page_after first_click)) = 1%nat /\
  List.length (pending (invoke (page_after first_click))) = 2%nat /\
  shown (invoke (page_after first_click))
    = shown (page_after first_click) ++ [CalledPdfToText resume_pdf] /\
  notices (shown (invoke (page_after first_click))) = [].
Proof. vm_compute. repeat split; reflexivity. Qed.

End Properties.

(** ** Further properties of a run *)

Module RunFacts.

Import App Run Paths Facts Flow Samples Cases.

Lemma calls_to_pdfToText_app (a b : list Event) :
  calls_to_pdfToText (a ++ b) = calls_to_pdfToText a ++ calls_to_pdfToText b.
Proof. apply flat_map_app. Qed.

Lemma extraction_calls_once (w : World) (file : File) :
  calls_to_pdfToText (extraction_events w file) = [file].
Proof. unfold extraction_events. now destruct (pdf_outcome w file). Qed.

Lemma extraction_not_user_facing (w : World) (file : File) :
  filter user_facing (notices (extraction_events w file)) = [].
Proof. unfold extraction_events. now destruct (pdf_outcome w file). Qed.

(** The run of a state with both inputs, by cases on the rest. *)
Lemma run_with_inputs (w : World) (s : AppState) (file : File) :
  resumeFile s = Some file ->
  falsy (jobDescription s) = false ->
  run w s =
  if falsy (trim (extracted w file)) then
    finish (with_loading false s)
      (extraction_events w file ++
       [Shown (ToastError (lit "Failed to Scan Resume"))])
  else
    match originating_error w s file,
          groq_outcome w (request_of w s file) with
    | Some e, _ =>
        finish (with_loading false s)
          (extraction_events w file ++
           CalledGroq (request_of w s file) :: failure_events e)
    | None, inr c =>
        match raw_content c with
        | Some raw =>
            match JSON_parse raw with
            | Some v =>
                finish (with_loading false (with_analysisResult v s))
                  (extraction_events w file ++
                   [CalledGroq (request_of w s file);
                    Shown (ToastSuccess (lit "Analysis complete!"))])
            | None => run w s
            end
        | None => run w s
        end
    | None, inl _ => run w s
    end.
Proof.
  intros Hfile Hjd. rewrite run_characterised at 1.
  unfold run_by_cases, originating_error. rewrite Hfile, Hjd.
  destruct (falsy (trim (extracted w file))); [reflexivity|].
  cbv zeta.
  destruct (groq_outcome w (request_of w s file)) as [e|c];
    [|destruct (raw_content c) as [raw|]; [destruct (JSON_parse raw)|]];
    unfold finish; now rewrite <- app_assoc.
Qed.

(** X1: [extractTextFromPDF] never rejects.  It resolves to the text
    [pdfToText] yields or, when [pdfToText] fails, to the empty string
    after logging the failure once; it calls [pdfToText] once and leaves
    the state as it was. *)
Theorem extractTextFromPDF_never_rejects
        (w : World) (file : File) (s : AppState) :
  exec w (extractTextFromPDF file) s =
    {| returned :=
         inr (match pdf_outcome w file with
              | inr text => text
              | inl _ => []
              end);
       final := s;
       events :=
         CalledPdfToText file ::
         match pdf_outcome w file with
         | inr _ => []
         | inl e =>
             [Shown (ConsoleError (lit "Failed to extract text from PDF:") e)]
         end |}.
Proof.
  unfold extractTextFromPDF. simpl.
  now destruct (pdf_outcome w file) as [e|text].
Qed.

(** X2: a run calls the text extraction at most once and the service at
    most once, never retrying, and whenever it sends a request the call of
    the extraction is the first thing it did. *)
Theorem one_call_each_extraction_first (w : World) (s : AppState) :
  (List.length (calls_to_pdfToText (events (run w s))) <= 1)%nat
  /\ (List.length (calls_to_groq (events (run w s))) <= 1)%nat
  /\ (calls_to_groq (events (run w s)) = [] \/
      exists file rest,
        resumeFile s = Some file /\
        events (run w s) = CalledPdfToText file :: rest).
Proof.
  rewrite requests_of_run. rewrite run_characterised. unfold run_by_cases.
  destruct (resumeFile s) as [file|]; [|simpl; repeat split; auto].
  destruct (falsy (jobDescription s)); [simpl; repeat split; auto|].
  assert (Hhead : forall st rest,
    events (finish st (extraction_events w file ++ rest))
    = CalledPdfToText file :: tl (extraction_events w file) ++ rest)
    by reflexivity.
  destruct (falsy (trim (extracted w file))).
  { unfold finish. cbn [events].
    rewrite calls_to_pdfToText_app, extraction_calls_once. simpl.
    repeat split; auto. }
  cbv zeta.
  destruct (groq_outcome w (request_of w s file)) as [e|c];
    [|destruct (raw_content c) as [raw|]; [destruct (JSON_parse raw)|]];
    rewrite <- app_assoc; unfold finish; cbn [events];
    rewrite calls_to_pdfToText_app, extraction_calls_once; simpl;
    (repeat split; auto; right; exists file; eexists;
     split; [reflexivity|]; unfold extraction_events; reflexivity).
Qed.

(** X3: every run tells the user exactly once how it went: among all it
    shows there is exactly one alert or toast, whatever the inputs and
    however the collaborators answer. *)
Theorem exactly_one_notice_for_the_user (w : World) (s : AppState) :
  List.length (filter user_facing (notices (events (run w s)))) = 1%nat.
Proof.
  rewrite run_characterised. unfold run_by_cases.
  destruct (resumeFile s) as [file|]; [|reflexivity].
  destruct (falsy (jobDescription s)); [reflexivity|].
  destruct (falsy (trim (extracted w file))).
  { unfold finish. cbn [events].
    now rewrite notices_app, filter_app, extraction_not_user_facing. }
  cbv zeta.
  destruct (groq_outcome w (request_of w s file)) as [e|c];
    [|destruct (raw_content c) as [raw|]; [destruct (JSON_parse raw)|]];
    rewrite <- app_assoc; unfold finish; cbn [events];
    now rewrite notices_app, filter_app, extraction_not_user_facing.
Qed.

(** X4: a failure after the request was sent, be it the rejection of the
    service call, an answer without choices or a text that is not JSON, is
    caught and reported in one way: the error itself goes to the console,
    the user gets the failure alert, nothing is stored and the loading
    flag is cleared. *)
Theorem failures_after_the_request_are_reported_alike
        (w : World) (s : AppState) (file : File) (e : JsError) :
  resumeFile s = Some file ->
  falsy (jobDescription s) = false ->
  falsy (trim (extracted w file)) = false ->
  originating_error w s file = Some e ->
  run w s =
    finish (with_loading false s)
      (extraction_events w file ++
       CalledGroq (request_of w s file) ::
       [Shown (ConsoleError (lit "Failed to analyze resume:") e);
        Shown (Alert (lit "Failed to analyze resume. Please try again."))]).
Proof.
  intros Hfile Hjd Htext Herr.
  rewrite (run_with_inputs w s Hfile Hjd), Htext, Herr. reflexivity.
Qed.

Lemma failures_after_the_request_are_reported_alike_witness :
  originating_error world_rate_limited ready resume_pdf
    = Some (Rejection (lit "429 Too Many Requests")) /\
  originating_error world_no_choice ready resume_pdf = Some TypeError /\
  originating_error world_not_json ready resume_pdf = Some SyntaxError /\
  final (run world_no_choice ready) = with_loading false ready.
Proof.
  assert (H : originating_error world_no_choice ready resume_pdf
              = Some TypeError) by (vm_compute; reflexivity).
  split; [vm_compute; reflexivity|]. split; [exact H|].
  split; [vm_compute; reflexivity|].
  rewrite (@failures_after_the_request_are_reported_alike
             world_no_choice ready resume_pdf TypeError
             eq_refl eq_refl eq_refl H).
  reflexivity.
Defined.

(** X5: the run reads the first choice of the answer only, and reads a
    [null] content as the text [null].  Two worlds whose answers agree on
    that give the same run; in particular an answer whose first content is
    [null] makes the run succeed and store [null]. *)
Theorem only_the_first_choice_is_read
        (w1 w2 : World) (s : AppState) (file : File) (c1 c2 : Completion) :
  resumeFile s = Some file ->
  pdf_outcome w1 file = pdf_outcome w2 file ->
  groq_outcome w1 (request_of w1 s file) = inr c1 ->
  groq_outcome w2 (request_of w2 s file) = inr c2 ->
  raw_content c1 = raw_content c2 ->
  run w1 s = run w2 s
  /\ (raw_content c1 = Some (lit "null") ->
      falsy (jobDescription s) = false ->
      falsy (trim (extracted w1 file)) = false ->
      succeeded (run w1 s) = true /\
      analysisResult (final (run w1 s)) = JNull).
Proof.
  intros Hfile Hpdf H1 H2 Hraw.
  assert (Hext : extracted w1 file = extracted w2 file)
    by (unfold extracted; now rewrite Hpdf).
  assert (Hev : extraction_events w1 file = extraction_events w2 file)
    by (unfold extraction_events; now rewrite Hpdf).
  assert (Hreq : request_of w1 s file = request_of w2 s file)
    by (unfold request_of; now rewrite Hext).
  split.
  - rewrite !run_characterised. unfold run_by_cases. rewrite Hfile.
    rewrite <- Hreq in H2 |- *. rewrite <- Hext, <- Hev, H1, H2, Hraw.
    reflexivity.
  - intros Hnull Hjd Htext.
    rewrite (run_with_inputs w1 s Hfile Hjd), Htext.
    unfold originating_error. rewrite H1, Hnull.
    change (JSON_parse (lit "null")) with (Some JNull). cbv iota.
    split; [|reflexivity].
    now rewrite succeeded_after_extraction.
Qed.

Lemma only_the_first_choice_is_read_witness :
  run world_two_choices ready = run world_score_150 ready.
Proof.
  exact (proj1 (@only_the_first_choice_is_read
                  world_two_choices world_score_150 ready resume_pdf
                  _ _ eq_refl eq_refl eq_refl eq_refl eq_refl)).
Defined.

(** X6: analysing again changes nothing.  A second run from the state the
    first one left, with the collaborators answering as before, shows the
    same events and leaves the same state. *)
Theorem analysing_again_is_idempotent (w : World) (s : AppState) :
  events (run w (final (run w s))) = events (run w s)
  /\ final (run w (final (run w s))) = final (run w s).
Proof.
  assert (Hframe : resumeFile (final (run w s)) = resumeFile s /\
                   jobDescription (final (run w s)) = jobDescription s).
  { rewrite final_of_run.
    destruct (response_text w s) as [raw|];
      [destruct (JSON_parse raw)|destruct (inputs_present s)]; now split. }
  destruct Hframe as [Hf Hj].
  assert (Hresp : response_text w (final (run w s)) = response_text w s).
  { unfold response_text, request_of. now rewrite Hf, Hj. }
  assert (Hin : inputs_present (final (run w s)) = inputs_present s).
  { unfold inputs_present. now rewrite Hf, Hj. }
  split.
  - remember (final (run w s)) as s' eqn:Es'. clear Es' Hresp Hin.
    rewrite !run_characterised.
    unfold run_by_cases, request_of. rewrite Hf, Hj.
    destruct (resumeFile s) as [file|]; [|reflexivity].
    destruct (falsy (jobDescription s)); [reflexivity|].
    destruct (falsy (trim (extracted w file))); [reflexivity|].
    cbv zeta.
    destruct (groq_outcome w _) as [e|c]; [reflexivity|].
    destruct (raw_content c) as [raw|]; [|reflexivity].
    now destruct (JSON_parse raw).
  - rewrite (final_of_run w (final (run w s))), Hresp, Hin.
    rewrite final_of_run.
    destruct (response_text w s) as [raw|];
      [destruct (JSON_parse raw)|destruct (inputs_present s)]; reflexivity.
Qed.

(** X7: the prompt does not delimit its two inputs.  Text that follows the
    job-description heading inside the resume is indistinguishable from a
    job description: moving it from the end of the resume text to the
    front of the job description leaves the prompt unchanged, though the
    resume texts differ. *)
Theorem prompt_does_not_separate_its_inputs (resumeText extra jd : jsstring) :
  build_prompt (resumeText ++ prompt_middle ++ extra) jd
  = build_prompt resumeText (extra ++ prompt_middle ++ jd)
  /\ resumeText ++ prompt_middle ++ extra <> resumeText.
Proof.
  split.
  - unfold build_prompt. now rewrite <- !app_assoc.
  - intros H. apply (f_equal (@List.length N)) in H.
    rewrite !length_app in H.
    change (List.length prompt_middle) with 19%nat in H. lia.
Qed.

End RunFacts.

(** ** Further properties of the page *)

Module PageFacts.

Import App Run Ui Paths Facts SingleFlight Flow Samples Cases.

(** Advancing a task stops at a return, a throw or an [await]. *)
Lemma advance_stops {A : Type} (t : Task A) (s : AppState) :
  (exists a, ended (fst (fst (advance t s))) = Some a /\
             in_flight (fst (fst (advance t s))) = [])
  \/ (exists file k, fst (fst (advance t s)) = AwaitPdfToText file k)
  \/ (exists req k, fst (fst (advance t s)) = AwaitCompletion req k).
Proof.
  revert s.
  induction t as [a | e | n k IH | b k IH | v k IH | file k _ | req k _];
    intros s; simpl.
  - left. now exists (inr a).
  - left. now exists (inl e).
  - specialize (IH s). now destruct (advance k s) as [[t' s'] evs].
  - apply IH.
  - apply IH.
  - right. left. now exists file, k.
  - right. right. now exists req, k.
Qed.

Lemma Awaits_advance {A : Type} (n : nat) (t : Task A) :
  Awaits n t -> forall s, Awaits n (fst (fst (advance t s))).
Proof.
  induction 1 as [n a | n e | n x k _ IH | n b k _ IH | n v k _ IH
                  | n file k Hk _ | n req k Hk _]; intros s; simpl;
    try (now constructor); try apply IH.
  specialize (IH s). now destruct (advance k s) as [[t' s'] evs].
Qed.

(** The writes of a task touch neither the file nor the job
    description. *)
Lemma advance_keeps_inputs {A : Type} (t : Task A) (s : AppState) :
  resumeFile (snd (fst (advance t s))) = resumeFile s /\
  jobDescription (snd (fst (advance t s))) = jobDescription s.
Proof.
  revert s.
  induction t as [a | e | n k IH | b k IH | v k IH | file k _ | req k _];
    intros s; simpl; try (now split).
  - specialize (IH s). now destruct (advance k s) as [[t' s'] evs].
  - apply (IH (with_loading b s)).
  - apply (IH (with_analysisResult v s)).
Qed.

Lemma analyzeResume_Awaits (file : option File) (jd : jsstring) :
  Awaits 2 (analyzeResume file jd).
Proof.
  unfold analyzeResume.
  destruct file as [file|]; [|repeat constructor].
  destruct (falsy jd); [repeat constructor|]. simpl.
  apply Awaits_setLoading, Awaits_pdfToText. intros [e|text]; simpl.
  - repeat constructor.
  - destruct (falsy (trim text)); simpl; [repeat constructor|].
    apply Awaits_completion. intros [e|c]; simpl; [repeat constructor|].
    unfold first_content. destruct (choices c) as [|ch chs]; simpl;
      [repeat constructor|].
    unfold JSON_parse_content.
    destruct (JSON_parse _); simpl; repeat constructor.
Qed.

Lemma drive_idle (w : World) (n : nat) (p : Page) :
  pending p = [] -> drive w n p = p.
Proof.
  intros H. induction n as [|n IH]; simpl; [reflexivity|].
  unfold settle_as. now rewrite H.
Qed.

(** Settling the promise of the only run in flight starts its
    continuation on the idle page. *)
Lemma settle_as_spawn (w : World) (s : AppState) (evs : list Event)
      (t t1 : Task unit) (o : Settled) :
  answer w t = Some o ->
  resume t o = Some t1 ->
  settle_as w {| app := s; pending := [t]; shown := evs |}
  = spawn t1 (idle s evs).
Proof.
  intros Ho Hr. unfold settle_as, settled, spawn, idle. simpl.
  rewrite Ho, Hr. destruct (advance t1 s) as [[t' s'] evs'].
  now rewrite app_nil_r.
Qed.

(** A task started on an idle page and driven by the world does what its
    uninterrupted run does. *)
Lemma drive_spawn (w : World) (n : nat) :
  forall (t : Task unit) (s : AppState) (evs : list Event),
  Awaits n t ->
  drive w n (spawn t (idle s evs))
  = idle (final (exec w t s)) (evs ++ events (exec w t s)).
Proof.
  induction n as [|n IH]; intros t s evs Ht.
  - simpl. unfold spawn, idle. simpl.
    pose proof (Awaits_advance Ht s) as Ht'.
    destruct (advance_stops t s) as [(a & Ha & Hfl) | [(f & k & E) | (r & k & E)]].
    + rewrite (exec_advance_ended w t s Ha). simpl.
      destruct (advance t s) as [[t' s'] evs']. simpl in *. now rewrite Hfl.
    + rewrite E in Ht'. inversion Ht'.
    + rewrite E in Ht'. inversion Ht'.
  - pose proof (Awaits_advance Ht s) as Ht'.
    destruct (advance_stops t s) as [(a & Ha & Hfl) | [(f & k & E) | (r & k & E)]].
    + rewrite (exec_advance_ended w t s Ha). simpl.
      assert (Hsp : spawn t (idle s evs)
                    = idle (snd (fst (advance t s))) (evs ++ snd (advance t s))).
      { unfold spawn, idle. simpl.
        destruct (advance t s) as [[t' s'] evs']. simpl in *. now rewrite Hfl. }
      rewrite Hsp. change (drive w (S n) ?p) with (drive w n (settle_as w p)).
      unfold settle_as, idle. simpl. now apply drive_idle.
    + assert (Hk : Awaits n (k (pdf_outcome w f))).
      { rewrite E in Ht'. inversion Ht'; subst.
        match goal with H : forall r, Awaits n (_ r) |- _ => apply H end. }
      rewrite (@exec_advance_suspended _ w t (k (pdf_outcome w f)) s
                 (PdfSettled (pdf_outcome w f)));
        [|now rewrite E|now rewrite E].
      simpl.
      assert (Hsp : spawn t (idle s evs)
                    = {| app := snd (fst (advance t s));
                         pending := [AwaitPdfToText f k];
                         shown := evs ++ snd (advance t s) |}).
      { unfold spawn, idle. simpl.
        destruct (advance t s) as [[t' s'] evs']. simpl in *. now subst t'. }
      rewrite Hsp.
      rewrite (@settle_as_spawn w _ _ _ (k (pdf_outcome w f))
                 (PdfSettled (pdf_outcome w f))); try reflexivity.
      rewrite (IH _ _ _ Hk). now rewrite app_assoc.
    + assert (Hk : Awaits n (k (groq_outcome w r))).
      { rewrite E in Ht'. inversion Ht'; subst.
        match goal with H : forall r, Awaits n (_ r) |- _ => apply H end. }
      rewrite (@exec_advance_suspended _ w t (k (groq_outcome w r)) s
                 (CompletionSettled (groq_outcome w r)));
        [|now rewrite E|now rewrite E].
      simpl.
      assert (Hsp : spawn t (idle s evs)
                    = {| app := snd (fst (advance t s));
                         pending := [AwaitCompletion r k];
                         shown := evs ++ snd (advance t s) |}).
      { unfold spawn, idle. simpl.
        destruct (advance t s) as [[t' s'] evs']. simpl in *. now subst t'. }
      rewrite Hsp.
      rewrite (@settle_as_spawn w _ _ _ (k (groq_outcome w r))
                 (CompletionSettled (groq_outcome w r))); try reflexivity.
      rewrite (IH _ _ _ Hk). now rewrite app_assoc.
Qed.

(** X8: on the page, a click on the enabled Analyze button followed by the
    extraction and the service settling as they would for an
    uninterrupted run leaves nothing in flight, the state that run ends
    in, and after what was shown before exactly the events of that run. *)
Theorem click_and_wait_is_the_run (w : World) (p : Page) :
  pending p = [] ->
  disabled (app p) = false ->
  click_and_wait w p
  = idle (final (run w (app p))) (shown p ++ events (run w (app p))).
Proof.
  intros Hnone Hen. unfold click_and_wait, click. rewrite Hen.
  change (settle_as w (settle_as w (invoke p))) with (drive w 2 (invoke p)).
  assert (Hp : p = idle (app p) (shown p)).
  { destruct p as [s pend evs]. simpl in *. now subst pend. }
  assert (Hinv : invoke p
                 = spawn (analyzeResume (resumeFile (app p))
                                        (jobDescription (app p)))
                         (idle (app p) (shown p))).
  { rewrite Hp at 1. reflexivity. }
  rewrite Hinv. unfold run. apply drive_spawn, analyzeResume_Awaits.
Qed.

Lemma click_and_wait_is_the_run_witness :
  click_and_wait world_rate_limited ready_page
  = idle (final (run world_rate_limited ready))
         (events (run world_rate_limited ready)).
Proof.
  exact (@click_and_wait_is_the_run world_rate_limited ready_page
           eq_refl eq_refl).
Defined.

Lemma edits_keep_the_run (edits : list Input) :
  forallb is_edit edits = true ->
  forall p,
  pending (fold_left react edits p) = pending p /\
  shown (fold_left react edits p) = shown p.
Proof.
  induction edits as [|i edits IH]; intros H p; simpl; [now split|].
  simpl in H. apply andb_prop in H as [Hi H].
  destruct (IH H (react p i)) as [Hp Hs]. rewrite Hp, Hs.
  destruct i as [files | v | | n o]; try discriminate; simpl.
  - unfold handleResumeUpload. now destruct files.
  - now split.
Qed.

(** X9: a run works on the inputs of the moment of the click.  Whatever
    file the user picks and however the job description is rewritten while
    the extraction is in flight, the request that follows carries the text
    of the file clicked on and the job description as it was at the
    click. *)
Theorem run_keeps_the_inputs_of_the_click
        (p : Page) (file : File) (edits : list Input) (text : jsstring) :
  pending p = [] ->
  loading (app p) = false ->
  resumeFile (app p) = Some file ->
  falsy (jobDescription (app p)) = false ->
  forallb is_edit edits = true ->
  falsy (trim text) = false ->
  shown (react (fold_left react edits (react p Click))
               (Settle 0 (PdfSettled (inr text))))
  = shown p ++
    [CalledPdfToText file;
     CalledGroq (build_request (build_prompt text (jobDescription (app p))))].
Proof.
  intros Hnone Hl Hfile Hjd Hedits Htext.
  assert (Hclick : pending (react p Click)
                   = in_flight (fst (fst (advance
                       (analyzeResume (Some file) (jobDescription (app p)))
                       (app p)))) /\
                   shown (react p Click) = shown p ++ [CalledPdfToText file]).
  { simpl. unfold click, disabled. rewrite Hl, Hfile, Hjd. simpl.
    unfold invoke. rewrite Hfile, Hnone.
    unfold analyzeResume. rewrite Hjd. simpl. now split. }
  destruct Hclick as [Hc1 Hc2].
  remember (react p Click) as q eqn:Eq. clear Eq.
  destruct (edits_keep_the_run edits Hedits q) as [Hpend Hshown].
  remember (fold_left react edits q) as q' eqn:Eq'. clear Eq'.
  simpl. unfold settled. rewrite Hpend, Hc1, Hshown, Hc2.
  unfold analyzeResume. rewrite Hjd. simpl. rewrite Htext. simpl.
  now rewrite <- app_assoc.
Qed.

Lemma run_keeps_the_inputs_of_the_click_witness :
  shown (react (fold_left react second_thoughts (react ready_page Click))
               (Settle 0 (PdfSettled (inr resume_text))))
  = [CalledPdfToText resume_pdf;
     CalledGroq (build_request
                   (build_prompt resume_text (jobDescription ready)))].
Proof.
  exact (@run_keeps_the_inputs_of_the_click ready_page resume_pdf
           second_thoughts resume_text
           eq_refl eq_refl eq_refl eq_refl eq_refl eq_refl).
Defined.

(** X10: only the user changes the inputs.  Whatever happens on the page,
    the job description changes by an edit of the field alone, and the
    file changes by an upload that brings a file alone: no run touches
    them, and a file once chosen can be replaced but not removed. *)
Theorem only_the_user_changes_the_inputs (p : Page) (i : Input) :
  jobDescription (app (react p i))
    = match i with
      | EditJobDescription v => v
      | _ => jobDescription (app p)
      end
  /\ resumeFile (app (react p i))
    = match i with
      | Upload (f :: _) => Some f
      | _ => resumeFile (app p)
      end.
Proof.
  destruct i as [files | v | | n o]; simpl.
  - unfold handleResumeUpload. destruct files; now split.
  - now split.
  - unfold click. destruct (disabled (app p)); [now split|].
    unfold invoke.
    pose proof (advance_keeps_inputs
                  (analyzeResume (resumeFile (app p)) (jobDescription (app p)))
                  (app p)) as H.
    destruct (advance _ (app p)) as [[t s] evs]. simpl in *.
    destruct H as [H1 H2]. now split.
  - unfold settled. destruct (nth_error (pending p) n) as [t|]; [|now split].
    destruct (resume t o) as [t1|]; [|now split].
    pose proof (advance_keeps_inputs t1 (app p)) as H.
    destruct (advance t1 (app p)) as [[t' s] evs]. simpl in *.
    destruct H as [H1 H2]. now split.
Qed.

End PageFacts.

(** ** Properties of the rendering *)

Module RenderFacts.

Import App Run Paths Facts Samples Cases Render.

Lemma and_then_inr {A B : Type} (r : JsError + A) (k : A -> JsError + B)
      (b : B) :
  and_then r k = inr b -> exists a, r = inr a /\ k a = inr b.
Proof. destruct r as [e|a]; simpl; [discriminate|]. intros H. now exists a. Qed.

(** Where the items of a list can be mapped over, its [length] is their
    number. *)
Lemma count_of_items (group name : jsstring) (v : JValue)
      (items : list JValue) :
  items_of group name v = inr items ->
  count_of group name v = inr (Some (number_of_nat (List.length items))).
Proof.
  unfold items_of, count_of.
  destruct (read2 group name v) as [e|[[ | | | | l | ]|]]; simpl;
    try discriminate.
  now intros [= <-].
Qed.

Ltac split_andb H :=
  repeat match type of H with
         | (_ && _)%bool = true =>
             let H1 := fresh "Hc" in
             apply andb_prop in H; destruct H as [H1 H]
         end.

Ltac case_lookups :=
  repeat match goal with
         | H : context [match lookup ?n ?ms with _ => _ end] |- _ =>
             let E := fresh "E" in
             destruct (lookup n ms) as [[ | | | | | ]|] eqn:E;
             try discriminate H; split_andb H
         end.

Ltac use_lookups :=
  repeat (cbn [truthy negb member and_then map_items getATSColor_of];
          try change (str_eqb (lit "length") (lit "length")) with true;
          cbv iota;
          match goal with
          | E : lookup ?n ?m = _ |- context [lookup ?n ?m] => rewrite E
          end).

Section Runtime.

Variable toLowerCase : jsstring -> jsstring.
Variable at_least : JsVal -> Z -> bool.

(** X11: a stored value of the shape the [AnalysisResult] interface
    declares renders: [renderAnalysisResult] throws nothing on it and
    yields a report with both charts drawn. *)
Theorem a_conforming_result_renders (v : JValue) :
  conforms v = true ->
  exists report,
    renderAnalysisResult toLowerCase at_least v = inr (Some report) /\
    skills_distribution report <> None /\
    requirements_coverage report <> None.
Proof.
  intros H. destruct v as [ | | | | | ms]; try discriminate.
  unfold conforms in H.
  cbn [forallb AnalysisResult fst snd has_field has_leaf] in H.
  split_andb H. clear H.
  case_lookups.
  unfold renderAnalysisResult, renderSkillsDistribution,
    renderRequirementsCoverage, items_of, items_at, count_of, read2.
  use_lookups.
  cbn [truthy negb member and_then map_items getATSColor_of].
  eexists. split; [reflexivity|]. split; discriminate.
Qed.

(** X12: a run can succeed and leave a result that cannot be rendered.
    When the response decodes to a truthy value whose [ats_compatibility]
    is not a string (the empty object, say), the run shows the success
    toast and stores the value, and [renderAnalysisResult] throws a
    [TypeError] on what was stored. *)
Theorem a_stored_result_can_break_the_rendering
        (w : World) (s : AppState) (raw : jsstring) (v : JValue) :
  response_text w s = Some raw ->
  JSON_parse raw = Some v ->
  truthy v = true ->
  (forall text, get (lit "ats_compatibility") v <> Some (JString text)) ->
  succeeded (run w s) = true /\
  renderAnalysisResult toLowerCase at_least (analysisResult (final (run w s)))
    = inl TypeError.
Proof.
  intros Hraw Hparse Htruthy Hats.
  destruct (decoded_is_stored w s Hraw Hparse) as [Hok Hstored].
  split; [exact Hok|]. rewrite Hstored.
  unfold renderAnalysisResult. rewrite Htruthy. cbn [negb]. cbv zeta.
  destruct v as [ | b | m e | str | items | ms]; try discriminate Htruthy;
    try reflexivity.
  cbn [member and_then]. simpl in Hats.
  destruct (lookup (lit "ats_compatibility") ms) as [[ | | | | | ]|];
    try reflexivity.
  now destruct (Hats s0).
Qed.

(** X13: a run can succeed and show no report.  When the response decodes
    to a falsy value ([null], [false], a zero, the empty string), the run
    shows the success toast and stores the value, replacing any earlier
    result, and nothing is rendered: neither the report nor a chart. *)
Theorem a_falsy_result_shows_no_report
        (w : World) (s : AppState) (raw : jsstring) (v : JValue) :
  response_text w s = Some raw ->
  JSON_parse raw = Some v ->
  truthy v = false ->
  succeeded (run w s) = true /\
  renderAnalysisResult toLowerCase at_least (analysisResult (final (run w s)))
    = inr None /\
  renderSkillsDistribution (analysisResult (final (run w s))) = inr None /\
  renderRequirementsCoverage (analysisResult (final (run w s))) = inr None.
Proof.
  intros Hraw Hparse Hfalsy.
  destruct (decoded_is_stored w s Hraw Hparse) as [Hok Hstored].
  split; [exact Hok|]. rewrite Hstored.
  unfold renderAnalysisResult, renderSkillsDistribution,
    renderRequirementsCoverage.
  rewrite Hfalsy. now repeat split.
Qed.

(** X14: the charts agree with the lists.  Whenever the report renders,
    the pie chart has the three entries Strong, Moderate and Weak, each
    with the number of items of the list shown under that heading and
    with a fill of its own from the colour table, and the bar has the
    numbers of the met and of the missing requirements listed below it. *)
Theorem charts_count_what_the_lists_show (v : JValue) (report : Report) :
  renderAnalysisResult toLowerCase at_least v = inr (Some report) ->
  skills_distribution report =
    Some {| pie_data :=
              [(lit "Strong",
                Some (number_of_nat (List.length (strong_skills report))));
               (lit "Moderate",
                Some (number_of_nat (List.length (moderate_skills report))));
               (lit "Weak",
                Some (number_of_nat (List.length (weak_skills report))))];
            pie_fills :=
              [Some (lit "#0088FE"); Some (lit "#00C49F");
               Some (lit "#FFBB28")] |}
  /\ requirements_coverage report =
    Some {| bar_name := lit "Requirements";
            bar_met :=
              Some (number_of_nat (List.length (met_requirements report)));
            bar_missing :=
              Some (number_of_nat
                      (List.length (missing_requirements report))) |}.
Proof.
  unfold renderAnalysisResult.
  destruct (truthy v) eqn:Htruthy; cbn [negb]; [|discriminate].
  cbv zeta. intros H.
  repeat match goal with
         | H : and_then _ _ = inr _ |- _ =>
             apply and_then_inr in H; destruct H as (? & ? & H)
         end.
  repeat match goal with
         | H : items_of _ _ v = inr _ |- _ => apply count_of_items in H
         end.
  match goal with
  | H : renderSkillsDistribution v = inr _ |- _ =>
      unfold renderSkillsDistribution in H; rewrite Htruthy in H;
      cbn [negb] in H
  end.
  match goal with
  | H : renderRequirementsCoverage v = inr _ |- _ =>
      unfold renderRequirementsCoverage in H; rewrite Htruthy in H;
      cbn [negb] in H
  end.
  repeat match goal with
         | E : count_of ?g ?n v = inr _, H : context [count_of ?g ?n v] |- _ =>
             rewrite E in H
         end.
  cbn [and_then] in *.
  repeat match goal with
         | H : inr _ = inr _ |- _ => injection H as H; try subst
         end.
  now split.
Qed.

(** X15: the colour of a score follows the score and knows no bounds.  For
    a score written as an integer, which the runtime compares with 80 and
    with 60 as integers are compared, the class is the green one exactly
    from 80 up, the yellow one exactly from 60 to 79 and the red one
    exactly below 60, so that a higher score never gets a lesser colour,
    150 is green and a negative score red. *)
Theorem score_colour_follows_the_score :
  (forall m, at_least (Some (JNumber m 0)) 80 = (80 <=? m)%Z) ->
  (forall m, at_least (Some (JNumber m 0)) 60 = (60 <=? m)%Z) ->
  forall a b : Z,
  (a <= b)%Z ->
  (getScoreColor at_least (Some (JNumber a 0)) = lit "text-green-600"
     <-> (80 <= a)%Z)
  /\ (getScoreColor at_least (Some (JNumber a 0)) = lit "text-yellow-600"
     <-> (60 <= a < 80)%Z)
  /\ (getScoreColor at_least (Some (JNumber a 0)) = lit "text-red-600"
     <-> (a < 60)%Z)
  /\ (getScoreColor at_least (Some (JNumber a 0)) = lit "text-green-600" ->
      getScoreColor at_least (Some (JNumber b 0)) = lit "text-green-600")
  /\ (getScoreColor at_least (Some (JNumber b 0)) = lit "text-red-600" ->
      getScoreColor at_least (Some (JNumber a 0)) = lit "text-red-600").
Proof.
  intros H80 H60 a b Hab. unfold getScoreColor. rewrite !H80, !H60.
  destruct (Z.leb_spec 80 a), (Z.leb_spec 60 a),
           (Z.leb_spec 80 b), (Z.leb_spec 60 b);
    repeat split; intros; try lia; try reflexivity; try discriminate.
Qed.

End Runtime.

Lemma a_conforming_result_renders_witness :
  conforms decoded_150 = true /\
  exists report,
    renderAnalysisResult ascii_toLowerCase integer_at_least decoded_150
      = inr (Some report).
Proof.
  assert (H : conforms decoded_150 = true) by (vm_compute; reflexivity).
  split; [exact H|].
  destruct (@a_conforming_result_renders ascii_toLowerCase integer_at_least
              decoded_150 H) as (report & Hr & _).
  now exists report.
Defined.

Lemma a_stored_result_can_break_the_rendering_witness :
  succeeded (run world_empty_object ready) = true /\
  renderAnalysisResult ascii_toLowerCase integer_at_least
    (analysisResult (final (run world_empty_object ready)))
  = inl TypeError.
Proof.
  apply (@a_stored_result_can_break_the_rendering
           ascii_toLowerCase integer_at_least
           world_empty_object ready empty_object (JObject [])).
  - vm_compute. reflexivity.
  - vm_compute. reflexivity.
  - reflexivity.
  - intros text. simpl. discriminate.
Defined.

Lemma a_falsy_result_shows_no_report_witness :
  succeeded (run world_zero analysed_before) = true /\
  analysisResult (final (run world_zero analysed_before)) = JNumber 0 0 /\
  renderAnalysisResult ascii_toLowerCase integer_at_least
    (analysisResult (final (run world_zero analysed_before)))
  = inr None.
Proof.
  destruct (@a_falsy_result_shows_no_report
              ascii_toLowerCase integer_at_least
              world_zero analysed_before (lit "0") (JNumber 0 0)
              ltac:(vm_compute; reflexivity) ltac:(vm_compute; reflexivity)
              eq_refl)
    as (Hok & Hrender & _).
  split; [exact Hok|]. split; [vm_compute; reflexivity|exact Hrender].
Defined.

Lemma charts_count_what_the_lists_show_witness :
  exists report,
    renderAnalysisResult ascii_toLowerCase integer_at_least decoded_150
      = inr (Some report) /\
    option_map pie_data (skills_distribution report)
      = Some [(lit "Strong", Some (JNumber 1 0));
              (lit "Moderate", Some (JNumber 1 0));
              (lit "Weak", Some (JNumber 1 0))].
Proof.
  destruct (renderAnalysisResult ascii_toLowerCase integer_at_least
              decoded_150) as [e|[report|]] eqn:E;
    [vm_compute in E; discriminate| |vm_compute in E; discriminate].
  exists report. split; [reflexivity|].
  rewrite (proj1 (@charts_count_what_the_lists_show
                    ascii_toLowerCase integer_at_least decoded_150 report E)).
  vm_compute in E. injection E as <-. vm_compute. reflexivity.
Defined.

Lemma score_colour_follows_the_score_witness :
  getScoreColor integer_at_least (Some (JNumber 150 0)) = lit "text-green-600"
  /\ getScoreColor integer_at_least (Some (JNumber (-5) 0)) = lit "text-red-600".
Proof.
  assert (H80 : forall m,
            integer_at_least (Some (JNumber m 0)) 80 = (80 <=? m)%Z)
    by reflexivity.
  assert (H60 : forall m,
            integer_at_least (Some (JNumber m 0)) 60 = (60 <=? m)%Z)
    by reflexivity.
  split.
  - apply (proj1 (@score_colour_follows_the_score integer_at_least H80 H60
                    150 150 ltac:(lia))). lia.
  - apply (proj1 (proj2 (proj2 (@score_colour_follows_the_score
                    integer_at_least H80 H60 (-5) (-5) ltac:(lia))))). lia.
Defined.

End RenderFacts.
